(* ===================================================================== *)
(* Medication Tracker: the coordinator, the service handlers and the     *)
(* calendar view of custom_components/medication_tracker, embedded in    *)
(* Rocq, with the properties of the engine stated and proved over them.  *)
(* ===================================================================== *)

From Stdlib Require Import ZArith QArith Qround Lia List Permutation Sorted.
From stdpp Require Import gmap strings list fin_maps.

Close Scope Q_scope.
Local Open Scope Z_scope.

(* --------------------------------------------------------------------- *)
(* Time                                                                   *)
(* --------------------------------------------------------------------- *)

(* A timezone-aware `datetime`: the instant in microseconds since the
   epoch (UTC) and the UTC offset of its tzinfo, also in microseconds.
   Time zones are fixed offsets here.  A `date` is a day number. *)
Record datetime := mk_datetime { instant : Z; utcoffset : Z }.

Definition date := Z.

Definition MICROSECOND : Z := 1.
Definition MINUTE : Z := 60000000.
Definition HOUR : Z := 60 * MINUTE.
Definition DAY : Z := 24 * HOUR.

(* datetime.date(): the calendar day of the wall clock in its own zone *)
Definition date_of (dt : datetime) : date := (instant dt + utcoffset dt) / DAY.

(* datetime + timedelta *)
Definition dt_add (dt : datetime) (delta : Z) : datetime :=
  mk_datetime (instant dt + delta) (utcoffset dt).

(* datetime.combine(d, time, tzinfo=tz) for a wall-clock time of day *)
Definition combine (d : date) (time_of_day : Z) (tz : Z) : datetime :=
  mk_datetime (d * DAY + time_of_day - tz) tz.

(* aware datetimes are ordered by their instant *)
Definition dt_le (a b : datetime) : Prop := instant a <= instant b.
Definition dt_leb (a b : datetime) : bool := instant a <=? instant b.

(* --------------------------------------------------------------------- *)
(* const.py                                                               *)
(* --------------------------------------------------------------------- *)

Inductive Frequency :=
  | FREQUENCY_DAILY
  | FREQUENCY_WEEKLY
  | FREQUENCY_MONTHLY
  | FREQUENCY_AS_NEEDED.

Inductive State :=
  | STATE_DUE
  | STATE_TAKEN
  | STATE_OVERDUE
  | STATE_NOT_DUE
  | STATE_SKIPPED.

(* --------------------------------------------------------------------- *)
(* models.py: the data model.  The module is not part of the sources at  *)
(* hand; the records follow the keyword arguments with which services.py  *)
(* and coordinator.py build and read them.                                *)
(* --------------------------------------------------------------------- *)

(** Modelled from the spec: the dataclass MedicationData of models.py
    (section 3, "MedicationData"); field names as services.py passes them. *)
Record MedicationData := mk_MedicationData {
  name : string;
  dosage : string;
  frequency : Frequency;
  times : list string;
  start_date : option datetime;
  end_date : option datetime;
  notes : string;
  supply_tracking_enabled : bool;
  current_supply : option Z;
  pills_per_dose : Z;
  refill_reminder_threshold : Z;
  last_refill_date : option datetime;
  show_refill_on_calendar : bool
}.

(** Modelled from the spec: the ledger entry DoseRecord of models.py
    (section 3, "DoseRecord"); calendar.py reads all three fields. *)
Record DoseRecord := mk_DoseRecord {
  timestamp : datetime;
  taken : bool;
  dose_notes : option string
}.

(** Modelled from the spec: the aggregate MedicationEntry of models.py
    (section 3, "MedicationEntry").  device_id is derived from id and is
    not stored. *)
Record MedicationEntry := mk_MedicationEntry {
  id : string;
  data : MedicationData;
  dose_history : list DoseRecord;
  next_due : option datetime;
  status : State
}.

(* attribute assignments *)
Definition set_start_date (v : option datetime) (d : MedicationData) : MedicationData :=
  mk_MedicationData (name d) (dosage d) (frequency d) (times d) v (end_date d)
    (notes d) (supply_tracking_enabled d) (current_supply d) (pills_per_dose d)
    (refill_reminder_threshold d) (last_refill_date d) (show_refill_on_calendar d).

Definition set_current_supply (v : option Z) (d : MedicationData) : MedicationData :=
  mk_MedicationData (name d) (dosage d) (frequency d) (times d) (start_date d)
    (end_date d) (notes d) (supply_tracking_enabled d) v (pills_per_dose d)
    (refill_reminder_threshold d) (last_refill_date d) (show_refill_on_calendar d).

Definition set_last_refill_date (v : option datetime) (d : MedicationData) : MedicationData :=
  mk_MedicationData (name d) (dosage d) (frequency d) (times d) (start_date d)
    (end_date d) (notes d) (supply_tracking_enabled d) (current_supply d)
    (pills_per_dose d) (refill_reminder_threshold d) v (show_refill_on_calendar d).

Definition set_data (d : MedicationData) (m : MedicationEntry) : MedicationEntry :=
  mk_MedicationEntry (id m) d (dose_history m) (next_due m) (status m).

Definition set_dose_history (h : list DoseRecord) (m : MedicationEntry) : MedicationEntry :=
  mk_MedicationEntry (id m) (data m) h (next_due m) (status m).

Definition set_next_due (v : option datetime) (m : MedicationEntry) : MedicationEntry :=
  mk_MedicationEntry (id m) (data m) (dose_history m) v (status m).

Definition set_status (s : State) (m : MedicationEntry) : MedicationEntry :=
  mk_MedicationEntry (id m) (data m) (dose_history m) (next_due m) s.

(* --------------------------------------------------------------------- *)
(* models.py: the methods of MedicationEntry the coordinator calls        *)
(* --------------------------------------------------------------------- *)

Section Engine.

(* What the specification leaves to the implementation is a parameter:
   the schedule calculator (4.1), the derivation of the status from
   schedule, ledger and clock (4.4, steps 2 to 6), what step 1 makes of a
   next-due value that is cached (4.4, step 7: only once the cache is
   discarded is step 1 recomputed from the data), and the dose rate of an
   as-needed medication estimated from its ledger (4.3). *)
Variable compute_next_due : MedicationData -> datetime -> option datetime.
Variable derive_status :
  MedicationData -> list DoseRecord -> option datetime -> datetime -> State.
Variable next_due_from_cache : MedicationData -> datetime -> datetime -> option datetime.
Variable historical_doses_per_day : list DoseRecord -> option Q.

(** Modelled from the spec: the constructor MedicationEntry(id=, data=,
    event_callback=) of models.py: a new aggregate has an empty ledger and
    no computed schedule. *)
Definition MedicationEntry_new (new_id : string) (d : MedicationData) : MedicationEntry :=
  mk_MedicationEntry new_id d [] None STATE_NOT_DUE.

(** Modelled from the spec: MedicationEntry.update_status of models.py
    (4.4): step 1 computes next_due from data and the clock when no
    next-due value is cached, and otherwise goes by the cached value (step
    7); the later steps derive the status; data and ledger are read
    only. *)
Definition update_status (now : datetime) (m : MedicationEntry) : MedicationEntry :=
  let nd :=
    match next_due m with
    | None => compute_next_due (data m) now
    | Some cached => next_due_from_cache (data m) cached now
    end in
  set_status (derive_status (data m) (dose_history m) nd now) (set_next_due nd m).

(** Modelled from the spec: MedicationEntry.reset_schedule of models.py
    (4.4, step 7): the cached next-due value is discarded. *)
Definition reset_schedule (m : MedicationEntry) : MedicationEntry :=
  set_next_due None m.

(** Modelled from the spec: MedicationEntry.record_dose_taken of models.py
    (4.4): appends DoseRecord(at, taken=true), then update_status. *)
Definition record_dose_taken (now at_ : datetime) (m : MedicationEntry) : MedicationEntry :=
  update_status now (set_dose_history (dose_history m ++ [mk_DoseRecord at_ true None]) m).

(** Modelled from the spec: MedicationEntry.record_dose_skipped of
    models.py (4.4): appends DoseRecord(at, taken=false), then
    update_status. *)
Definition record_dose_skipped (now at_ : datetime) (m : MedicationEntry) : MedicationEntry :=
  update_status now (set_dose_history (dose_history m ++ [mk_DoseRecord at_ false None]) m).

(** Modelled from the spec: MedicationEntry.decrement_supply of models.py
    (4.3, decrement): current_supply = max(0, current_supply -
    pills_per_dose); nothing happens when tracking is disabled or the
    supply is absent. *)
Definition decrement_supply (m : MedicationEntry) : MedicationEntry :=
  if supply_tracking_enabled (data m) then
    match current_supply (data m) with
    | Some s => set_data (set_current_supply (Some (Z.max 0 (s - pills_per_dose (data m)))) (data m)) m
    | None => m
    end
  else m.

(** Modelled from the spec: the doses per day implied by the frequency
    (4.3, daily_consumption). *)
Definition doses_per_day (m : MedicationEntry) : option Q :=
  let n := Z.of_nat (length (times (data m))) in
  match frequency (data m) with
  | FREQUENCY_DAILY => Some (inject_Z (if n =? 0 then 1 else n))
  | FREQUENCY_WEEKLY => Some (inject_Z n / inject_Z 7)%Q
  | FREQUENCY_MONTHLY => Some (inject_Z n / inject_Z 30)%Q
  | FREQUENCY_AS_NEEDED => historical_doses_per_day (dose_history m)
  end.

(** Modelled from the spec: MedicationEntry.daily_consumption of models.py
    (4.3): pills_per_dose times the doses per day. *)
Definition daily_consumption (m : MedicationEntry) : option Q :=
  match doses_per_day m with
  | Some r => Some (inject_Z (pills_per_dose (data m)) * r)%Q
  | None => None
  end.

(** Modelled from the spec: MedicationEntry.days_of_supply_remaining of
    models.py (4.3): current_supply / daily_consumption, none when the
    consumption is 0 or none (or there is no supply count). *)
Definition days_of_supply_remaining (m : MedicationEntry) : option Q :=
  match current_supply (data m), daily_consumption m with
  | Some s, Some c => if Qeq_bool c 0 then None else Some (inject_Z s / c)%Q
  | _, _ => None
  end.

(** Modelled from the spec: MedicationEntry.estimated_refill_date of
    models.py (4.3): today + days_of_supply_remaining, rounded down to
    whole days. *)
Definition estimated_refill_date (today : date) (m : MedicationEntry) : option date :=
  match days_of_supply_remaining m with
  | Some d => Some (today + Qfloor d)
  | None => None
  end.

(** Modelled from the spec: MedicationEntry.is_low_supply of models.py
    (4.3): tracking enabled, supply present, and the days of supply
    remaining at most the reminder threshold. *)
Definition is_low_supply (m : MedicationEntry) : bool :=
  supply_tracking_enabled (data m) &&
  match current_supply (data m), days_of_supply_remaining m with
  | Some _, Some d => Qle_bool d (inject_Z (refill_reminder_threshold (data m)))
  | _, _ => false
  end.

(** Modelled from the spec: the document MedicationEntry.to_dict of
    models.py writes for one medication (section 6, persisted state): the
    id, the full MedicationData with its supply fields, and the dose
    history; status and next_due are derived and are not stored. *)
Record StoredMedication := mk_StoredMedication {
  stored_id : string;
  stored_data : MedicationData;
  stored_dose_history : list DoseRecord
}.

(** Modelled from the spec: MedicationEntry.to_dict of models.py
    (section 6). *)
Definition to_dict (m : MedicationEntry) : StoredMedication :=
  mk_StoredMedication (id m) (data m) (dose_history m).

(** Modelled from the spec: MedicationEntry.from_dict of models.py
    (section 6): the entry is rebuilt from the document, with no schedule
    computed yet, as the constructor leaves a new entry. *)
Definition from_dict (d : StoredMedication) : MedicationEntry :=
  mk_MedicationEntry (stored_id d) (stored_data d) (stored_dose_history d) None
    STATE_NOT_DUE.

(* --------------------------------------------------------------------- *)
(* coordinator.py                                                         *)
(* --------------------------------------------------------------------- *)

(* What one call reads from its host: the clock (dt_util.now(), one reading
   for the whole call), the identifier drawn by uuid.uuid4(), and whether
   the debouncer behind async_request_refresh runs the refresh at once or
   defers it. *)
Record Host := mk_Host {
  now : datetime;
  uuid4 : string;
  refresh_immediately : bool
}.

(* The payload of EVENT_MEDICATION_LOW_SUPPLY (days_remaining, a rounded
   float, is left out). *)
Record LowSupplyEvent := mk_LowSupplyEvent {
  ev_medication_id : string;
  ev_medication_name : string;
  ev_current_supply : option Z;
  ev_pills_per_dose : Z;
  ev_refill_threshold_days : Z;
  ev_estimated_refill_date : option date
}.

(* MedicationCoordinator: the registry self._medications, the low-supply
   events fired on hass.bus so far, oldest first, and what self._store
   holds: None before anything was saved, else the "medications" of the
   document saved last (the Store is taken to read and write without
   error).  The device registry and the entity callbacks touch none of the
   three and are not modelled. *)
Record MedicationCoordinator := mk_MedicationCoordinator {
  medications : gmap string MedicationEntry;
  bus : list LowSupplyEvent;
  store : option (gmap string StoredMedication)
}.

(* async_load_medications: every stored document is rebuilt and assigned
   to the registry under its key; without a document nothing is loaded *)
Definition async_load_medications (c : MedicationCoordinator) : MedicationCoordinator :=
  match store c with
  | Some stored =>
      mk_MedicationCoordinator ((from_dict <$> stored) ∪ medications c) (bus c) (store c)
  | None => c
  end.

(* async_save_medications *)
Definition async_save_medications (c : MedicationCoordinator) : MedicationCoordinator :=
  mk_MedicationCoordinator (medications c) (bus c) (Some (to_dict <$> medications c)).

Arguments async_save_medications : simpl never.

(* `not self._medications` *)
Definition registry_is_empty (registry : gmap string MedicationEntry) : bool :=
  match map_to_list registry with
  | [] => true
  | _ :: _ => false
  end.

(* the event_data dict of _fire_low_supply_event *)
Definition low_supply_event_data (h : Host) (medication : MedicationEntry) : LowSupplyEvent :=
  let estimated_refill := estimated_refill_date (date_of (now h)) medication in
  mk_LowSupplyEvent (id medication) (name (data medication))
    (current_supply (data medication))
    (pills_per_dose (data medication))
    (refill_reminder_threshold (data medication))
    estimated_refill.

Definition _fire_low_supply_event (h : Host) (medication : MedicationEntry)
    (c : MedicationCoordinator) : MedicationCoordinator :=
  mk_MedicationCoordinator (medications c)
    (bus c ++ [low_supply_event_data h medication]) (store c).

(* _async_update_data: an empty registry is first loaded from the Store,
   then the status of every medication is recomputed *)
Definition _async_update_data (h : Host) (c : MedicationCoordinator) : MedicationCoordinator :=
  let c := if registry_is_empty (medications c) then async_load_medications c else c in
  mk_MedicationCoordinator (update_status (now h) <$> medications c) (bus c) (store c).

(* DataUpdateCoordinator.async_refresh and async_request_refresh *)
Definition async_refresh (h : Host) (c : MedicationCoordinator) : MedicationCoordinator :=
  _async_update_data h c.

Definition async_request_refresh (h : Host) (c : MedicationCoordinator) : MedicationCoordinator :=
  if refresh_immediately h then async_refresh h c else c.

(* dt_util.now() is datetime.now(DEFAULT_TIME_ZONE): the zone of the
   installation is the zone of the clock reading *)
Definition DEFAULT_TIME_ZONE (h : Host) : Z := utcoffset (now h).

(* dt_util.start_of_local_day(d): midnight of day d in the zone tz *)
Definition start_of_local_day (tz : Z) (d : date) : datetime := combine d 0 tz.

(* The default start date is assigned to the MedicationData object passed
   in, which then is the data of the new entry; the service layer builds a
   new object for every call, so values stand for objects here. *)
Definition async_add_medication (h : Host) (medication_data : MedicationData)
    (c : MedicationCoordinator) : string * MedicationCoordinator :=
  let medication_data :=
    match start_date medication_data with
    | None =>
        let today := date_of (now h) in
        set_start_date (Some (start_of_local_day (DEFAULT_TIME_ZONE h) today)) medication_data
    | Some _ => medication_data
    end in
  let medication := MedicationEntry_new (uuid4 h) medication_data in
  let c :=
    mk_MedicationCoordinator (<[id medication := medication]> (medications c)) (bus c)
      (store c) in
  let c := async_save_medications c in
  let c := async_request_refresh h c in
  (id medication, c).

Definition async_remove_medication (h : Host) (medication_id : string)
    (c : MedicationCoordinator) : bool * MedicationCoordinator :=
  match medications c !! medication_id with
  | Some _ =>
      let c :=
        mk_MedicationCoordinator (delete medication_id (medications c)) (bus c) (store c) in
      let c := async_save_medications c in
      let c := async_request_refresh h c in
      (true, c)
  | None => (false, c)
  end.

Definition async_update_medication (h : Host) (medication_id : string)
    (medication_data : MedicationData) (c : MedicationCoordinator)
    : bool * MedicationCoordinator :=
  match medications c !! medication_id with
  | None => (false, c)
  | Some medication =>
      let medication := set_data medication_data medication in
      let medication := reset_schedule medication in
      let medication := update_status (now h) medication in
      let c :=
        mk_MedicationCoordinator (<[medication_id := medication]> (medications c)) (bus c)
          (store c) in
      let c := async_save_medications c in
      let c := async_request_refresh h c in
      (true, c)
  end.

Definition async_take_medication (h : Host) (medication_id : string)
    (taken_at : option datetime) (c : MedicationCoordinator)
    : bool * MedicationCoordinator :=
  match medications c !! medication_id with
  | None => (false, c)
  | Some medication =>
      let taken_at := match taken_at with Some t => t | None => now h end in
      let was_low_supply := is_low_supply medication in
      let medication := record_dose_taken (now h) taken_at medication in
      let '(medication, c) :=
        if supply_tracking_enabled (data medication) then
          let medication := decrement_supply medication in
          if negb was_low_supply && is_low_supply medication
          then (medication, _fire_low_supply_event h medication c)
          else (medication, c)
        else (medication, c) in
      let c :=
        mk_MedicationCoordinator (<[medication_id := medication]> (medications c)) (bus c)
          (store c) in
      let c := async_save_medications c in
      let c := async_refresh h c in
      (true, c)
  end.

Definition async_skip_medication (h : Host) (medication_id : string)
    (skipped_at : option datetime) (c : MedicationCoordinator)
    : bool * MedicationCoordinator :=
  match medications c !! medication_id with
  | None => (false, c)
  | Some medication =>
      let skipped_at := match skipped_at with Some t => t | None => now h end in
      let medication := record_dose_skipped (now h) skipped_at medication in
      let c :=
        mk_MedicationCoordinator (<[medication_id := medication]> (medications c)) (bus c)
          (store c) in
      let c := async_save_medications c in
      let c := async_refresh h c in
      (true, c)
  end.

Definition get_medication (medication_id : string) (c : MedicationCoordinator)
    : option MedicationEntry :=
  medications c !! medication_id.

(* `x or 0` on an optional integer: None and 0 are both falsy *)
Definition or_zero (x : option Z) : Z :=
  match x with
  | Some v => if v =? 0 then 0 else v
  | None => 0
  end.

(* `refill_date or dt_util.now()`: a datetime is never falsy *)
Definition or_now (h : Host) (x : option datetime) : datetime :=
  match x with
  | Some t => t
  | None => now h
  end.

Definition async_refill_medication (h : Host) (medication_id : string)
    (refill_amount : Z) (refill_date : option datetime) (c : MedicationCoordinator)
    : bool * MedicationCoordinator :=
  match medications c !! medication_id with
  | None => (false, c)
  | Some medication =>
      if negb (supply_tracking_enabled (data medication)) then (false, c)
      else
        let current := or_zero (current_supply (data medication)) in
        let medication :=
          set_data (set_current_supply (Some (current + refill_amount)) (data medication)) medication in
        let medication :=
          set_data (set_last_refill_date (Some (or_now h refill_date)) (data medication)) medication in
        let c :=
          mk_MedicationCoordinator (<[medication_id := medication]> (medications c)) (bus c)
            (store c) in
        let c := async_save_medications c in
        let c := async_request_refresh h c in
        (true, c)
  end.

Definition async_update_supply (h : Host) (medication_id : string)
    (new_supply : Z) (c : MedicationCoordinator) : bool * MedicationCoordinator :=
  match medications c !! medication_id with
  | None => (false, c)
  | Some medication =>
      if negb (supply_tracking_enabled (data medication)) then (false, c)
      else
        let was_low_supply := is_low_supply medication in
        let medication :=
          set_data (set_current_supply (Some new_supply) (data medication)) medication in
        let c :=
          if negb was_low_supply && is_low_supply medication
          then _fire_low_supply_event h medication c
          else c in
        let c :=
          mk_MedicationCoordinator (<[medication_id := medication]> (medications c)) (bus c)
            (store c) in
        let c := async_save_medications c in
        let c := async_request_refresh h c in
        (true, c)
  end.

(* --------------------------------------------------------------------- *)
(* services.py                                                            *)
(* --------------------------------------------------------------------- *)

(* cv.positive_int of the schemas: an integer that is not negative *)
Definition positive_int (raw : Z) : option Z :=
  if 0 <=? raw then Some raw else None.

(* call.data of update_medication after UPDATE_MEDICATION_SCHEMA: every
   key but the id is optional *)
Record UpdateMedicationCall := mk_UpdateMedicationCall {
  call_medication_id : string;
  call_name : option string;
  call_dosage : option string;
  call_frequency : option Frequency;
  call_times : option (list string);
  call_start_date : option date;
  call_end_date : option date;
  call_notes : option string;
  call_supply_tracking_enabled : option bool;
  call_current_supply : option Z;
  call_pills_per_dose : option Z;
  call_refill_reminder_threshold : option Z;
  call_show_refill_on_calendar : option bool
}.

(* call.data.get(key, default) *)
Definition get {A : Type} (field : option A) (default : A) : A :=
  match field with
  | Some v => v
  | None => default
  end.

(* The start_date of handle_update_medication: the date of the call, or
   else the datetime kept in the entry, is moved to the start of its local
   day; None stays None. *)
Definition updated_start_date (h : Host) (call : UpdateMedicationCall)
    (current : MedicationData) : option datetime :=
  match call_start_date call with
  | Some d => Some (start_of_local_day (DEFAULT_TIME_ZONE h) d)
  | None =>
      match start_date current with
      | Some dt => Some (start_of_local_day (DEFAULT_TIME_ZONE h) (date_of dt))
      | None => None
      end
  end.

Definition end_of_local_day (tz : Z) (d : date) : datetime :=
  dt_add (dt_add (start_of_local_day tz d) DAY) (- MICROSECOND).

Definition updated_end_date (h : Host) (call : UpdateMedicationCall)
    (current : MedicationData) : option datetime :=
  match call_end_date call with
  | Some d => Some (end_of_local_day (DEFAULT_TIME_ZONE h) d)
  | None =>
      match end_date current with
      | Some dt => Some (end_of_local_day (DEFAULT_TIME_ZONE h) (date_of dt))
      | None => None
      end
  end.

(* the MedicationData(...) built by handle_update_medication *)
Definition updated_data (h : Host) (call : UpdateMedicationCall)
    (current : MedicationData) : MedicationData :=
  mk_MedicationData
    (get (call_name call) (name current))
    (get (call_dosage call) (dosage current))
    (get (call_frequency call) (frequency current))
    (get (call_times call) (times current))
    (updated_start_date h call current)
    (updated_end_date h call current)
    (get (call_notes call) (notes current))
    (get (call_supply_tracking_enabled call) (supply_tracking_enabled current))
    (match call_current_supply call with
     | Some v => Some v
     | None => current_supply current
     end)
    (get (call_pills_per_dose call) (pills_per_dose current))
    (get (call_refill_reminder_threshold call) (refill_reminder_threshold current))
    (last_refill_date current)
    (get (call_show_refill_on_calendar call) (show_refill_on_calendar current)).

(* handle_update_medication, for the coordinator that
   _get_coordinator_for_medication finds (the one holding the id) *)
Definition handle_update_medication (h : Host) (call : UpdateMedicationCall)
    (c : MedicationCoordinator) : MedicationCoordinator :=
  let medication_id := call_medication_id call in
  match get_medication medication_id c with
  | None => c
  | Some current_medication =>
      snd (async_update_medication h medication_id
             (updated_data h call (data current_medication)) c)
  end.

(* handle_refill_medication and handle_update_supply behind their schemas:
   a call whose amount fails cv.positive_int never reaches the handler *)
Definition handle_refill_medication (h : Host) (medication_id : string)
    (raw_refill_amount : Z) (refill_date : option datetime)
    (c : MedicationCoordinator) : MedicationCoordinator :=
  match positive_int raw_refill_amount with
  | None => c
  | Some refill_amount =>
      match get_medication medication_id c with
      | None => c
      | Some _ => snd (async_refill_medication h medication_id refill_amount refill_date c)
      end
  end.

Definition handle_update_supply (h : Host) (medication_id : string)
    (raw_new_supply : Z) (c : MedicationCoordinator) : MedicationCoordinator :=
  match positive_int raw_new_supply with
  | None => c
  | Some new_supply =>
      match get_medication medication_id c with
      | None => c
      | Some _ => snd (async_update_supply h medication_id new_supply c)
      end
  end.

(* --------------------------------------------------------------------- *)
(* calendar.py                                                            *)
(* --------------------------------------------------------------------- *)

(* The uid and the summary of a CalendarEvent tell a dose entry from a
   refill entry; their text is kept as data.  The description is rendering
   only and is left out. *)
Inductive EventUid :=
  | DoseUid (medication_id : string) (dose_time : datetime)
  | RefillUid (medication_id : string) (refill_date : date).

Inductive EventSummary :=
  | DoseSummary (was_taken : bool) (medication_name medication_dosage : string)
  | RefillSummary (medication_name : string).

Record CalendarEvent := mk_CalendarEvent {
  ev_start : datetime;
  ev_end : datetime;
  ev_summary : EventSummary;
  ev_uid : EventUid
}.

Definition _create_event_summary (medication : MedicationEntry)
    (dose_record : DoseRecord) : EventSummary :=
  DoseSummary (taken dose_record) (name (data medication)) (dosage (data medication)).

(* start_date.date() <= d <= end_date.date() *)
Definition date_in_range (start_date end_date : datetime) (d : date) : bool :=
  (date_of start_date <=? d) && (d <=? date_of end_date).

Definition dose_event (medication_id : string) (medication : MedicationEntry)
    (dose_record : DoseRecord) : CalendarEvent :=
  let dose_time := timestamp dose_record in
  mk_CalendarEvent dose_time (dt_add dose_time (5 * MINUTE))
    (_create_event_summary medication dose_record)
    (DoseUid medication_id dose_time).

Definition refill_event (start_date : datetime) (medication_id : string)
    (medication : MedicationEntry) (refill_date : date) : CalendarEvent :=
  let refill_datetime := combine refill_date (9 * HOUR) (utcoffset start_date) in
  mk_CalendarEvent refill_datetime (dt_add refill_datetime HOUR)
    (RefillSummary (name (data medication)))
    (RefillUid medication_id refill_date).

(* events.sort(key=lambda x: x.start): a stable sort on the start *)
Fixpoint insert_by_start (e : CalendarEvent) (l : list CalendarEvent) : list CalendarEvent :=
  match l with
  | [] => [e]
  | x :: l' =>
      if dt_leb (ev_start e) (ev_start x) then e :: x :: l'
      else x :: insert_by_start e l'
  end.

Fixpoint sort_by_start (l : list CalendarEvent) : list CalendarEvent :=
  match l with
  | [] => []
  | e :: l' => insert_by_start e (sort_by_start l')
  end.

(* the inner loop over medication.dose_history *)
Definition append_dose_events (start_date end_date : datetime)
    (medication_id : string) (medication : MedicationEntry)
    (events : list CalendarEvent) : list CalendarEvent :=
  fold_left
    (fun events dose_record =>
       let dose_time := timestamp dose_record in
       if date_in_range start_date end_date (date_of dose_time)
       then events ++ [dose_event medication_id medication dose_record]
       else events)
    (dose_history medication) events.

(* the refill entry appended after the doses of one medication *)
Definition append_refill_event (today : date) (start_date end_date : datetime)
    (medication_id : string) (medication : MedicationEntry)
    (events : list CalendarEvent) : list CalendarEvent :=
  if supply_tracking_enabled (data medication)
     && show_refill_on_calendar (data medication)
  then
    match estimated_refill_date today medication with
    | Some refill_date =>
        if date_in_range start_date end_date refill_date
        then events ++ [refill_event start_date medication_id medication refill_date]
        else events
    | None => events
    end
  else events.

(* MedicationTrackerCalendar.async_get_events; `medications` are the items
   of coordinator.data["medications"] in the order the dict yields them,
   `today` is the day the clock shows when estimated_refill_date is read *)
Definition async_get_events (today : date)
    (medications : list (string * MedicationEntry))
    (start_date end_date : datetime) : list CalendarEvent :=
  let events :=
    fold_left
      (fun events '(medication_id, medication) =>
         let events := append_dose_events start_date end_date medication_id medication events in
         append_refill_event today start_date end_date medication_id medication events)
      medications [] in
  sort_by_start events.

(* --------------------------------------------------------------------- *)
(* Notions the properties are stated with                                 *)
(* --------------------------------------------------------------------- *)

(* section 3: with supply tracking enabled, a supply count that is set is
   not negative, for every medication of the registry *)
Definition supply_invariant (c : MedicationCoordinator) : Prop :=
  forall i m s,
    medications c !! i = Some m ->
    supply_tracking_enabled (data m) = true ->
    current_supply (data m) = Some s ->
    0 <= s.

(* every medication of c is still registered in c', with the
   last_refill_date it had *)
Definition same_refill_dates (c c' : MedicationCoordinator) : Prop :=
  forall j m,
    medications c !! j = Some m ->
    exists m',
      medications c' !! j = Some m'
      /\ last_refill_date (data m') = last_refill_date (data m).

(* every entry is stored under its own id, as add_medication stores it *)
Definition keys_match (c : MedicationCoordinator) : Prop :=
  forall i m, medications c !! i = Some m -> id m = i.

(* an evaluation of c loads nothing: the registry is not empty, or the
   Store holds no medication (every operation that changes the registry
   saves it, so this holds from the first such operation or the start-up
   load on) *)
Definition loads_nothing (c : MedicationCoordinator) : Prop :=
  registry_is_empty (medications c) = true ->
  match store c with
  | Some stored => stored = ∅
  | None => True
  end.

(* every stored document is saved under the id it holds, as
   async_save_medications writes it *)
Definition store_keys_match (c : MedicationCoordinator) : Prop :=
  match store c with
  | Some stored => forall i d, stored !! i = Some d -> stored_id d = i
  | None => True
  end.

Definition keyed_by_id (c : MedicationCoordinator) : Prop :=
  keys_match c /\ store_keys_match c.

(* is_low_supply of the medication stored under i (false when there is
   none) *)
Definition low_at (i : string) (c : MedicationCoordinator) : bool :=
  match medications c !! i with
  | Some m => is_low_supply m
  | None => false
  end.

(* is_low_supply of i went from false in c to true in c' *)
Definition crossed (i : string) (c c' : MedicationCoordinator) : bool :=
  negb (low_at i c) && low_at i c'.

(* how many of the fired low-supply events are about medication i *)
Fixpoint count_fired (i : string) (l : list LowSupplyEvent) : nat :=
  match l with
  | [] => O
  | ev :: l' =>
      ((if decide (ev_medication_id ev = i) then 1 else 0) + count_fired i l')%nat
  end.

(* The operations of the low-supply claim: the two that can fire the event
   and the periodic evaluation of all statuses. *)
Inductive Operation :=
  | TakeMedication (medication_id : string) (taken_at : option datetime)
  | UpdateSupply (medication_id : string) (new_supply : Z)
  | Evaluate.

Definition perform (h : Host) (op : Operation) (c : MedicationCoordinator)
    : MedicationCoordinator :=
  match op with
  | TakeMedication i t => snd (async_take_medication h i t c)
  | UpdateSupply i v => snd (async_update_supply h i v c)
  | Evaluate => _async_update_data h c
  end.

Fixpoint run (steps : list (Host * Operation)) (c : MedicationCoordinator)
    : MedicationCoordinator :=
  match steps with
  | [] => c
  | (h, op) :: rest => run rest (perform h op c)
  end.

(* the number of steps of the run at which is_low_supply of i crossed from
   false to true *)
Fixpoint crossings (i : string) (steps : list (Host * Operation))
    (c : MedicationCoordinator) : nat :=
  match steps with
  | [] => O
  | (h, op) :: rest =>
      let c' := perform h op c in
      ((if crossed i c c' then 1 else 0) + crossings i rest c')%nat
  end.

(* what a requested refresh does to one entry *)
Definition refreshed (h : Host) (m : MedicationEntry) : MedicationEntry :=
  if refresh_immediately h then update_status (now h) m else m.

(* the entry take_medication stores for m *)
Definition taken_entry (h : Host) (t : option datetime) (m : MedicationEntry)
    : MedicationEntry :=
  let m1 := record_dose_taken (now h) (or_now h t) m in
  if supply_tracking_enabled (data m1) then decrement_supply m1 else m1.

(* The calendar view as section 6 words it, one medication at a time: the
   dose records in range, then the refill entry if there is one.  "In
   range" is read on calendar days, as calendar.py compares. *)
Definition dose_entries_spec (start_date end_date : datetime)
    (medication_id : string) (medication : MedicationEntry) : list CalendarEvent :=
  map (dose_event medication_id medication)
    (List.filter (fun r => date_in_range start_date end_date (date_of (timestamp r)))
       (dose_history medication)).

Definition refill_entries_spec (today : date) (start_date end_date : datetime)
    (medication_id : string) (medication : MedicationEntry) : list CalendarEvent :=
  match estimated_refill_date today medication with
  | Some refill_date =>
      if supply_tracking_enabled (data medication)
         && show_refill_on_calendar (data medication)
         && date_in_range start_date end_date refill_date
      then [refill_event start_date medication_id medication refill_date]
      else []
  | None => []
  end.

Definition calendar_view_spec (today : date)
    (medications : list (string * MedicationEntry))
    (start_date end_date : datetime) : list CalendarEvent :=
  flat_map
    (fun '(medication_id, medication) =>
       dose_entries_spec start_date end_date medication_id medication
       ++ refill_entries_spec today start_date end_date medication_id medication)
    medications.


(* --------------------------------------------------------------------- *)
(* Notions for the further properties of the coordinator                  *)
(* --------------------------------------------------------------------- *)

(* m' is m up to what update_status recomputes: same id, same data, same
   ledger *)
Definition same_record (m m' : MedicationEntry) : Prop :=
  id m' = id m /\ data m' = data m /\ dose_history m' = dose_history m.

(* what is stored under j in c and in c' is the same record, or nothing in
   both *)
Definition same_at (j : string) (c c' : MedicationCoordinator) : Prop :=
  match medications c !! j, medications c' !! j with
  | Some m, Some m' => same_record m m'
  | None, None => True
  | _, _ => False
  end.

(* the operation touched at most the medication stored under i *)
Definition untouched_except (i : string) (c c' : MedicationCoordinator) : Prop :=
  forall j, j <> i -> same_at j c c'.

(* --------------------------------------------------------------------- *)
(* services.py: the add service, the routing of a call to a coordinator   *)
(* and the registration of the services                                   *)
(* --------------------------------------------------------------------- *)

(* call.data of add_medication: name, dosage and frequency are required *)
Record AddMedicationCall := mk_AddMedicationCall {
  add_name : string;
  add_dosage : string;
  add_frequency : Frequency;
  add_times : option (list string);
  add_start_date : option date;
  add_end_date : option date;
  add_notes : option string;
  add_supply_tracking_enabled : option bool;
  add_current_supply : option Z;
  add_pills_per_dose : option Z;
  add_refill_reminder_threshold : option Z;
  add_show_refill_on_calendar : option bool
}.

(** Modelled from the spec: handle_add_medication passes no
    last_refill_date to MedicationData(...); the default of the dataclass
    field in models.py is taken to be None (section 3, "optional
    instant"). *)
Definition DEFAULT_LAST_REFILL_DATE : option datetime := None.

(* the MedicationData(...) built by handle_add_medication *)
Definition added_data (h : Host) (call : AddMedicationCall) : MedicationData :=
  let start_date :=
    match add_start_date call with
    | Some d => Some (start_of_local_day (DEFAULT_TIME_ZONE h) d)
    | None => None
    end in
  let end_date :=
    match add_end_date call with
    | Some d => Some (end_of_local_day (DEFAULT_TIME_ZONE h) d)
    | None => None
    end in
  mk_MedicationData
    (add_name call)
    (add_dosage call)
    (add_frequency call)
    (get (add_times call) [])
    start_date
    end_date
    (get (add_notes call) "")
    (get (add_supply_tracking_enabled call) false)
    (add_current_supply call)
    (get (add_pills_per_dose call) 1)
    (get (add_refill_reminder_threshold call) 7)
    DEFAULT_LAST_REFILL_DATE
    (get (add_show_refill_on_calendar call) false).

(* handle_add_medication on the coordinator it picks *)
Definition handle_add_medication (h : Host) (call : AddMedicationCall)
    (c : MedicationCoordinator) : MedicationCoordinator :=
  snd (async_add_medication h (added_data h call) c).








(* const.py: the domain and the service names *)
Definition DOMAIN : string := "medication_tracker".
Definition SERVICE_TAKE_MEDICATION : string := "take_medication".
Definition SERVICE_SKIP_MEDICATION : string := "skip_medication".
Definition SERVICE_ADD_MEDICATION : string := "add_medication".
Definition SERVICE_REMOVE_MEDICATION : string := "remove_medication".
Definition SERVICE_UPDATE_MEDICATION : string := "update_medication".
Definition SERVICE_REFILL_MEDICATION : string := "refill_medication".
Definition SERVICE_UPDATE_SUPPLY : string := "update_supply".

(* what hass.services holds under (domain, service): one of the seven
   handlers of this integration with its schema, or a service of somebody
   else *)
Inductive RegisteredService :=
  | TakeMedicationService
  | SkipMedicationService
  | AddMedicationService
  | RemoveMedicationService
  | UpdateMedicationService
  | RefillMedicationService
  | UpdateSupplyService
  | ForeignService (tag : nat).

Definition async_register (domain service : string) (handler : RegisteredService)
    (services : gmap (string * string) RegisteredService)
    : gmap (string * string) RegisteredService :=
  <[(domain, service) := handler]> services.

Definition has_service (domain service : string)
    (services : gmap (string * string) RegisteredService) : bool :=
  match services !! (domain, service) with
  | Some _ => true
  | None => false
  end.

Definition async_setup_services (services : gmap (string * string) RegisteredService)
    : gmap (string * string) RegisteredService :=
  if has_service DOMAIN SERVICE_TAKE_MEDICATION services then services
  else
    let services := async_register DOMAIN SERVICE_TAKE_MEDICATION TakeMedicationService services in
    let services := async_register DOMAIN SERVICE_SKIP_MEDICATION SkipMedicationService services in
    let services := async_register DOMAIN SERVICE_ADD_MEDICATION AddMedicationService services in
    let services := async_register DOMAIN SERVICE_REMOVE_MEDICATION RemoveMedicationService services in
    let services := async_register DOMAIN SERVICE_UPDATE_MEDICATION UpdateMedicationService services in
    let services := async_register DOMAIN SERVICE_REFILL_MEDICATION RefillMedicationService services in
    async_register DOMAIN SERVICE_UPDATE_SUPPLY UpdateSupplyService services.

Definition async_unload_services (services : gmap (string * string) RegisteredService)
    : gmap (string * string) RegisteredService :=
  let services := delete (DOMAIN, SERVICE_TAKE_MEDICATION) services in
  let services := delete (DOMAIN, SERVICE_SKIP_MEDICATION) services in
  let services := delete (DOMAIN, SERVICE_ADD_MEDICATION) services in
  let services := delete (DOMAIN, SERVICE_REMOVE_MEDICATION) services in
  let services := delete (DOMAIN, SERVICE_UPDATE_MEDICATION) services in
  let services := delete (DOMAIN, SERVICE_REFILL_MEDICATION) services in
  delete (DOMAIN, SERVICE_UPDATE_SUPPLY) services.

(* the seven keys of this integration in hass.services *)
Definition OWN_SERVICES : list (string * string) :=
  [(DOMAIN, SERVICE_TAKE_MEDICATION); (DOMAIN, SERVICE_SKIP_MEDICATION);
   (DOMAIN, SERVICE_ADD_MEDICATION); (DOMAIN, SERVICE_REMOVE_MEDICATION);
   (DOMAIN, SERVICE_UPDATE_MEDICATION); (DOMAIN, SERVICE_REFILL_MEDICATION);
   (DOMAIN, SERVICE_UPDATE_SUPPLY)].

(* the day of an instant on the wall clock of the installation *)
Definition local_day (h : Host) (t : datetime) : date :=
  (instant t + DEFAULT_TIME_ZONE h) / DAY.

(* the dates of the data are None or lie on the day boundaries of zone tz:
   start_date at 00:00:00, end_date at 23:59:59.999999 *)
Definition day_aligned (tz : Z) (d : MedicationData) : Prop :=
  match start_date d with
  | Some s => s = start_of_local_day tz (date_of s)
  | None => True
  end
  /\ match end_date d with
     | Some e => e = end_of_local_day tz (date_of e)
     | None => True
     end.

(* an update call that names the medication and nothing else *)
Definition call_without_changes (medication_id : string) : UpdateMedicationCall :=
  mk_UpdateMedicationCall medication_id None None None None None None None None None
    None None None.

(* --------------------------------------------------------------------- *)
(* Notions for the further properties of the calendar                     *)
(* --------------------------------------------------------------------- *)

(* the events that start at instant k, in the order of the list *)
Definition starting_at (k : Z) (l : list CalendarEvent) : list CalendarEvent :=
  List.filter (fun ev => instant (ev_start ev) =? k) l.

(* --------------------------------------------------------------------- *)
(* coordinator.py: the entities of a medication in the entity registry    *)
(* --------------------------------------------------------------------- *)

(* an entry of the entity registry, as far as the coordinator reads it *)
Record RegistryEntry := mk_RegistryEntry {
  entity_id : string;
  domain : string;
  platform : string;
  unique_id : string
}.

(* `needle in hay` on str: hay has needle as a substring *)
Fixpoint contains (needle hay : string) : bool :=
  String.prefix needle hay
  || match hay with
     | EmptyString => false
     | String _ rest => contains needle rest
     end.

(* the condition of the list comprehension *)
Definition is_entity_of (medication_id : string) (entry : RegistryEntry) : bool :=
  (String.eqb (domain entry) "sensor"
   || String.eqb (domain entry) "binary_sensor"
   || String.eqb (domain entry) "button")
  && String.eqb (platform entry) DOMAIN
  && contains medication_id (unique_id entry).

(* entity_registry.entities maps entity ids to entries; the entity ids to
   remove are collected first, then removed one by one with async_remove.
   (The values are listed in the order of the map, the result does not
   depend on it.) *)
Definition entries_to_remove (medication_id : string)
    (entities : gmap string RegistryEntry) : list string :=
  map entity_id
    (List.filter (is_entity_of medication_id) (map snd (map_to_list entities))).

Definition _async_remove_entities_for_medication (medication_id : string)
    (entities : gmap string RegistryEntry) : gmap string RegistryEntry :=
  fold_left (fun registry id_to_remove => delete id_to_remove registry)
    (entries_to_remove medication_id entities) entities.

(* --------------------------------------------------------------------- *)
(* Sample data for the worked examples                                    *)
(* --------------------------------------------------------------------- *)

(* two doses of two pills a day; 30 pills last 7.5 days, 28 pills 7 days *)
Definition aspirin_data : MedicationData :=
  mk_MedicationData "aspirin" "100mg" FREQUENCY_DAILY ["08:00"; "20:00"]%string
    None None "" true (Some 30) 2 7 None true.

Definition aspirin : MedicationEntry :=
  mk_MedicationEntry "aspirin" aspirin_data [] None STATE_NOT_DUE.

Definition aspirin_registry : MedicationCoordinator :=
  mk_MedicationCoordinator {[ "aspirin"%string := aspirin ]} [] None.

(* the same medication with 5 pills left *)
Definition aspirin_5 : MedicationEntry :=
  set_data (set_current_supply (Some 5) aspirin_data) aspirin.

Definition aspirin_5_registry : MedicationCoordinator :=
  mk_MedicationCoordinator {[ "aspirin"%string := aspirin_5 ]} [] None.

(* the same medication with no supply count and tracking switched off *)
Definition aspirin_untracked : MedicationEntry :=
  set_data
    (mk_MedicationData "aspirin" "100mg" FREQUENCY_DAILY ["08:00"; "20:00"]%string
       None None "" false (Some 30) 2 7 None true)
    aspirin.

(* a dose taken at 08:00 of day 0 *)
Definition morning_dose : DoseRecord :=
  mk_DoseRecord (mk_datetime (8 * HOUR) 0) true None.

Definition aspirin_with_dose : MedicationEntry :=
  set_dose_history [morning_dose] aspirin.

(* noon of day 1, UTC; the identifier the host would draw next *)
Definition noon : datetime := mk_datetime (36 * HOUR) 0.

Definition sample_host : Host := mk_Host noon "ibuprofen" true.

Definition refill_day : datetime := mk_datetime (30 * HOUR) 0.

(* a call of the update service that changes the dosage and the supply *)
Definition sample_call : UpdateMedicationCall :=
  mk_UpdateMedicationCall "aspirin" None (Some "200mg"%string) None None None None
    None None (Some 12) None None None.


(* aspirin after a refill on refill_day; aspirin with tracking on but no
   supply count yet *)
Definition aspirin_refilled : MedicationEntry :=
  set_data (set_last_refill_date (Some refill_day) aspirin_data) aspirin.

Definition aspirin_uncounted : MedicationEntry :=
  set_data (set_current_supply None aspirin_data) aspirin.

(* a calendar query for 12:00 to 13:00 of day 0 *)
Definition query_start : datetime := mk_datetime (12 * HOUR) 0.
Definition query_end : datetime := mk_datetime (13 * HOUR) 0.

(* an engine without schedules: nothing is ever due *)
Definition no_schedule (d : MedicationData) (t : datetime) : option datetime := None.

Definition never_due (d : MedicationData) (l : list DoseRecord)
    (nd : option datetime) (t : datetime) : State := STATE_NOT_DUE.

Definition no_history_rate (l : list DoseRecord) : option Q := None.

(* a cached next-due value is kept as it is *)
Definition keep_cached (d : MedicationData) (cached t : datetime) : option datetime :=
  Some cached.

(* --------------------------------------------------------------------- *)
(* Sample data for the further worked examples                            *)
(* --------------------------------------------------------------------- *)

(* an add call for ibuprofen from day 3 to day 5 *)
Definition ibuprofen_call : AddMedicationCall :=
  mk_AddMedicationCall "ibuprofen" "200mg" FREQUENCY_DAILY (Some ["08:00"%string])
    (Some 3) (Some 5) None None None None None None.

(* the entry that call leaves in a registry *)
Definition ibuprofen_added : MedicationEntry :=
  mk_MedicationEntry "ibuprofen" (added_data sample_host ibuprofen_call) [] None
    STATE_NOT_DUE.

Definition ibuprofen_registry : MedicationCoordinator :=
  mk_MedicationCoordinator {[ "ibuprofen"%string := ibuprofen_added ]} [] None.

(* an entity registry with a sensor of aspirin and the dose calendar *)
Definition aspirin_sensor : RegistryEntry :=
  mk_RegistryEntry "sensor.aspirin_status" "sensor" "medication_tracker" "aspirin_status".

Definition dose_calendar : RegistryEntry :=
  mk_RegistryEntry "calendar.doses" "calendar" "medication_tracker"
    "medication_tracker_dose_taken".

Definition sample_entities : gmap string RegistryEntry :=
  <["sensor.aspirin_status"%string := aspirin_sensor]>
    (<["calendar.doses"%string := dose_calendar]> ∅).

(* the event the first dose of aspirin fires *)
Definition aspirin_low_event : LowSupplyEvent :=
  mk_LowSupplyEvent "aspirin" "aspirin" (Some 28) 2 7 (Some 8).





(* aspirin with a next dose cached for refill_day *)
Definition aspirin_scheduled : MedicationEntry :=
  set_next_due (Some refill_day) aspirin.

Definition scheduled_registry : MedicationCoordinator :=
  mk_MedicationCoordinator {[ "aspirin"%string := aspirin_scheduled ]} [] None.

(* a coordinator after a restart: nothing registered yet, aspirin in the
   Store *)
Definition restarted : MedicationCoordinator :=
  mk_MedicationCoordinator ∅ [] (Some {[ "aspirin"%string := to_dict aspirin ]}).

(* calendar queries: day 0 to day 10, and day 2 back to day 0 *)
Definition ten_days_start : datetime := mk_datetime 0 0.
Definition ten_days_end : datetime := mk_datetime (10 * DAY) 0.
Definition day_two : datetime := mk_datetime (2 * DAY) 0.

(* ===================================================================== *)
(* Properties                                                             *)
(* ===================================================================== *)

(* --------------------------------------------------------------------- *)
(* update_status and the refresh leave data and ledger alone              *)
(* --------------------------------------------------------------------- *)

Lemma update_status_data t m : data (update_status t m) = data m.
Proof. reflexivity. Qed.

Lemma update_status_dose_history t m :
  dose_history (update_status t m) = dose_history m.
Proof. reflexivity. Qed.

Lemma update_status_id t m : id (update_status t m) = id m.
Proof. reflexivity. Qed.

Lemma is_low_supply_ext m1 m2 :
  data m1 = data m2 -> dose_history m1 = dose_history m2 ->
  is_low_supply m1 = is_low_supply m2.
Proof.
  intros Hd Hh.
  unfold is_low_supply, days_of_supply_remaining, daily_consumption, doses_per_day.
  rewrite Hd, Hh. reflexivity.
Qed.

Lemma is_low_supply_update_status t m :
  is_low_supply (update_status t m) = is_low_supply m.
Proof. apply is_low_supply_ext; reflexivity. Qed.

Lemma is_low_supply_tracking m :
  is_low_supply m = true -> supply_tracking_enabled (data m) = true.
Proof. unfold is_low_supply. intros H. apply andb_true_iff in H. tauto. Qed.

Lemma refreshed_data h m : data (refreshed h m) = data m.
Proof. unfold refreshed. destruct (refresh_immediately h); reflexivity. Qed.

Lemma refreshed_dose_history h m : dose_history (refreshed h m) = dose_history m.
Proof. unfold refreshed. destruct (refresh_immediately h); reflexivity. Qed.

(* the empty test and the load *)
Lemma registry_is_empty_true (reg : gmap string MedicationEntry) :
  registry_is_empty reg = true -> reg = ∅.
Proof.
  unfold registry_is_empty. intros H. apply map_to_list_empty_iff.
  destruct (map_to_list reg); [reflexivity|discriminate].
Qed.

Lemma registry_is_empty_empty : registry_is_empty ∅ = true.
Proof. unfold registry_is_empty. rewrite map_to_list_empty. reflexivity. Qed.

Lemma registry_is_empty_lookup (reg : gmap string MedicationEntry) i m :
  reg !! i = Some m -> registry_is_empty reg = false.
Proof.
  intros Hm. destruct (registry_is_empty reg) eqn:He; [|reflexivity].
  apply registry_is_empty_true in He. subst reg. rewrite lookup_empty in Hm.
  discriminate.
Qed.

(* a registry that is not empty is evaluated as it is *)
Lemma _async_update_data_nonempty h c :
  registry_is_empty (medications c) = false ->
  _async_update_data h c =
  mk_MedicationCoordinator (update_status (now h) <$> medications c) (bus c) (store c).
Proof. intros He. unfold _async_update_data. rewrite He. reflexivity. Qed.

(* right after a save the load finds what the registry holds, which is
   nothing when the load is run *)
Lemma _async_update_data_saved h c :
  _async_update_data h (async_save_medications c) =
  mk_MedicationCoordinator (update_status (now h) <$> medications c) (bus c)
    (Some (to_dict <$> medications c)).
Proof.
  unfold _async_update_data, async_save_medications. cbn [medications bus store].
  destruct (registry_is_empty (medications c)) eqn:He; [|reflexivity].
  apply registry_is_empty_true in He. unfold async_load_medications.
  cbn [medications bus store]. rewrite He, !fmap_empty, (left_id_L ∅ (∪)).
  reflexivity.
Qed.

Lemma medications_async_save_medications c :
  medications (async_save_medications c) = medications c.
Proof. reflexivity. Qed.

Lemma bus_async_save_medications c : bus (async_save_medications c) = bus c.
Proof. reflexivity. Qed.

Lemma lookup_async_refresh h c i :
  medications (async_refresh h (async_save_medications c)) !! i
  = update_status (now h) <$> medications c !! i.
Proof. unfold async_refresh. rewrite _async_update_data_saved. apply lookup_fmap. Qed.

Lemma lookup_async_request_refresh h c i :
  medications (async_request_refresh h (async_save_medications c)) !! i
  = refreshed h <$> medications c !! i.
Proof.
  unfold async_request_refresh, refreshed.
  destruct (refresh_immediately h).
  - apply lookup_async_refresh.
  - rewrite medications_async_save_medications.
    destruct (medications c !! i); reflexivity.
Qed.

Lemma bus_async_load_medications c : bus (async_load_medications c) = bus c.
Proof. unfold async_load_medications. destruct (store c); reflexivity. Qed.

Lemma bus_async_update_data h c : bus (_async_update_data h c) = bus c.
Proof.
  unfold _async_update_data. cbn [bus].
  destruct (registry_is_empty (medications c)); [apply bus_async_load_medications|reflexivity].
Qed.

Lemma bus_async_refresh h c : bus (async_refresh h c) = bus c.
Proof. apply bus_async_update_data. Qed.

Lemma bus_async_request_refresh h c : bus (async_request_refresh h c) = bus c.
Proof.
  unfold async_request_refresh.
  destruct (refresh_immediately h); [apply bus_async_refresh|reflexivity].
Qed.

Lemma or_zero_Some s : or_zero (Some s) = s.
Proof. simpl. destruct (Z.eqb_spec s 0); congruence. Qed.

(* --------------------------------------------------------------------- *)
(* Unknown identifiers                                                    *)
(* --------------------------------------------------------------------- *)

(** C5: for an id that is not in the registry, remove, update, take, skip,
    refill and update_supply all return false and hand back the coordinator
    they were given: no entry is added, removed or changed, and nothing is
    fired. *)
Theorem unknown_id_is_rejected (h : Host) (medication_id : string)
    (c : MedicationCoordinator) :
  medications c !! medication_id = None ->
  async_remove_medication h medication_id c = (false, c)
  /\ (forall d, async_update_medication h medication_id d c = (false, c))
  /\ (forall t, async_take_medication h medication_id t c = (false, c))
  /\ (forall t, async_skip_medication h medication_id t c = (false, c))
  /\ (forall n t, async_refill_medication h medication_id n t c = (false, c))
  /\ (forall n, async_update_supply h medication_id n c = (false, c)).
Proof.
  intros Hnone.
  unfold async_remove_medication, async_update_medication, async_take_medication,
    async_skip_medication, async_refill_medication, async_update_supply.
  rewrite Hnone. repeat split; reflexivity.
Qed.

(* --------------------------------------------------------------------- *)
(* Refill                                                                 *)
(* --------------------------------------------------------------------- *)

Lemma async_refill_medication_enabled h i n t c m :
  medications c !! i = Some m ->
  supply_tracking_enabled (data m) = true ->
  exists m',
    async_refill_medication h i n t c = (true, snd (async_refill_medication h i n t c))
    /\ medications (snd (async_refill_medication h i n t c)) !! i = Some m'
    /\ data m' =
         set_last_refill_date (Some (or_now h t))
           (set_current_supply (Some (or_zero (current_supply (data m)) + n)) (data m))
    /\ dose_history m' = dose_history m.
Proof.
  intros Hm Hen. unfold async_refill_medication. rewrite Hm, Hen. simpl.
  eexists. split; [reflexivity|].
  rewrite lookup_async_request_refresh. simpl. rewrite lookup_insert_eq. simpl.
  split; [reflexivity|]. rewrite refreshed_data, refreshed_dose_history. split; reflexivity.
Qed.

Lemma async_refill_medication_disabled h i n t c m :
  medications c !! i = Some m ->
  supply_tracking_enabled (data m) = false ->
  async_refill_medication h i n t c = (false, c).
Proof.
  intros Hm Hen. unfold async_refill_medication. rewrite Hm, Hen. reflexivity.
Qed.

(** C2: refill(id, amount, date) on a registered medication with supply
    tracking enabled returns true, leaves current_supply + amount as the
    supply and the given date as last_refill_date; for an unknown id or with
    tracking disabled it returns false and the coordinator is unchanged. *)
Theorem refill_adds_amount (h : Host) (medication_id : string) (amount : Z)
    (refill_date : datetime) (c : MedicationCoordinator) :
  match medications c !! medication_id with
  | Some m =>
      if supply_tracking_enabled (data m) then
        fst (async_refill_medication h medication_id amount (Some refill_date) c) = true
        /\ exists m',
             medications (snd (async_refill_medication h medication_id amount (Some refill_date) c))
               !! medication_id = Some m'
             /\ current_supply (data m') =
                  Some (match current_supply (data m) with
                        | Some s => s + amount
                        | None => amount
                        end)
             /\ last_refill_date (data m') = Some refill_date
      else async_refill_medication h medication_id amount (Some refill_date) c = (false, c)
  | None => async_refill_medication h medication_id amount (Some refill_date) c = (false, c)
  end.
Proof.
  destruct (medications c !! medication_id) as [m|] eqn:Hm.
  - destruct (supply_tracking_enabled (data m)) eqn:Hen.
    + destruct (async_refill_medication_enabled h medication_id amount (Some refill_date) c m Hm Hen)
        as (m' & Hr & Hl & Hd & _).
      split; [rewrite Hr; reflexivity|].
      exists m'. split; [exact Hl|]. rewrite Hd. simpl. split; [|reflexivity].
      destruct (current_supply (data m)) as [s|]; [rewrite or_zero_Some|]; reflexivity.
    + apply (async_refill_medication_disabled h medication_id amount _ c m Hm Hen).
  - unfold async_refill_medication. rewrite Hm. reflexivity.
Qed.

(** C10: a refill of a tracked medication whose current_supply is absent or
    zero leaves exactly the amount as supply; a refill without a date sets
    last_refill_date to the clock reading. *)
Theorem refill_of_missing_supply (h : Host) (medication_id : string) (amount : Z)
    (refill_date : option datetime) (c : MedicationCoordinator) (m : MedicationEntry) :
  medications c !! medication_id = Some m ->
  supply_tracking_enabled (data m) = true ->
  exists m',
    medications (snd (async_refill_medication h medication_id amount refill_date c))
      !! medication_id = Some m'
    /\ (current_supply (data m) = None \/ current_supply (data m) = Some 0 ->
        current_supply (data m') = Some amount)
    /\ (refill_date = None -> last_refill_date (data m') = Some (now h)).
Proof.
  intros Hm Hen.
  destruct (async_refill_medication_enabled h medication_id amount refill_date c m Hm Hen)
    as (m' & _ & Hl & Hd & _).
  exists m'. split; [exact Hl|]. rewrite Hd. simpl. split.
  - intros [H0 | H0]; rewrite H0; reflexivity.
  - intros ->. reflexivity.
Qed.

(* --------------------------------------------------------------------- *)
(* update_supply                                                          *)
(* --------------------------------------------------------------------- *)

Lemma async_update_supply_enabled h i v c m :
  medications c !! i = Some m ->
  supply_tracking_enabled (data m) = true ->
  exists m',
    fst (async_update_supply h i v c) = true
    /\ medications (snd (async_update_supply h i v c)) !! i = Some m'
    /\ data m' = set_current_supply (Some v) (data m)
    /\ dose_history m' = dose_history m.
Proof.
  intros Hm Hen. unfold async_update_supply. rewrite Hm, Hen. simpl.
  eexists. split; [reflexivity|].
  rewrite lookup_async_request_refresh. simpl.
  match goal with |- context [if ?b then _ else _] => destruct b end;
    simpl; rewrite lookup_insert_eq; simpl;
    (split; [reflexivity|]); rewrite refreshed_data, refreshed_dose_history;
    split; reflexivity.
Qed.

(** C4: update_supply(id, value) on a registered medication: with supply
    tracking disabled it returns false and the coordinator (the supply
    included) is unchanged; with tracking enabled it returns true and
    current_supply is exactly the value. *)
Theorem update_supply_overrides (h : Host) (medication_id : string) (value : Z)
    (c : MedicationCoordinator) (m : MedicationEntry) :
  medications c !! medication_id = Some m ->
  if supply_tracking_enabled (data m) then
    fst (async_update_supply h medication_id value c) = true
    /\ exists m',
         medications (snd (async_update_supply h medication_id value c))
           !! medication_id = Some m'
         /\ current_supply (data m') = Some value
  else
    async_update_supply h medication_id value c = (false, c)
    /\ exists m',
         medications (snd (async_update_supply h medication_id value c))
           !! medication_id = Some m'
         /\ current_supply (data m') = current_supply (data m).
Proof.
  intros Hm. destruct (supply_tracking_enabled (data m)) eqn:Hen.
  - destruct (async_update_supply_enabled h medication_id value c m Hm Hen)
      as (m' & Hr & Hl & Hd & _).
    split; [exact Hr|]. exists m'. split; [exact Hl|]. rewrite Hd. reflexivity.
  - assert (Hr : async_update_supply h medication_id value c = (false, c)).
    { unfold async_update_supply. rewrite Hm, Hen. reflexivity. }
    split; [exact Hr|]. exists m. rewrite Hr. simpl. split; [exact Hm|reflexivity].
Qed.

(* --------------------------------------------------------------------- *)
(* add_medication                                                         *)
(* --------------------------------------------------------------------- *)

Lemma DAY_positive : 0 < DAY.
Proof. reflexivity. Qed.

Lemma date_of_start_of_local_day tz d : date_of (start_of_local_day tz d) = d.
Proof.
  unfold date_of, start_of_local_day, combine. simpl.
  replace (d * DAY + 0 - tz + tz) with (d * DAY) by lia.
  apply Z.div_mul. pose proof DAY_positive. lia.
Qed.



(* --------------------------------------------------------------------- *)
(* update_medication                                                      *)
(* --------------------------------------------------------------------- *)

Lemma async_update_medication_known h i d c m :
  medications c !! i = Some m ->
  fst (async_update_medication h i d c) = true
  /\ forall j,
       medications (snd (async_update_medication h i d c)) !! j =
       refreshed h <$>
         (if decide (i = j)
          then Some (update_status (now h) (reset_schedule (set_data d m)))
          else medications c !! j).
Proof.
  intros Hm. unfold async_update_medication. rewrite Hm. simpl.
  split; [reflexivity|]. intros j.
  rewrite lookup_async_request_refresh. simpl. rewrite lookup_insert.
  reflexivity.
Qed.

(** C7: update(id, data) on a registered id returns true; the entry it
    leaves is the old one with data replaced by the given data, then
    reset_schedule, then update_status (and the status refresh the host may
    run).  reset_schedule empties the cached next_due, so that the
    update_status that follows computes next_due and status from the new
    data alone, whatever was cached before; the entry keeps its id and its
    ledger and carries exactly the given data. *)
Theorem update_replaces_data_and_resets_schedule (h : Host) (medication_id : string)
    (medication_data : MedicationData) (c : MedicationCoordinator) (m : MedicationEntry) :
  medications c !! medication_id = Some m ->
  let r := async_update_medication h medication_id medication_data c in
  let updated := update_status (now h) (reset_schedule (set_data medication_data m)) in
  fst r = true
  /\ medications (snd r) !! medication_id = Some (refreshed h updated)
  /\ next_due (reset_schedule (set_data medication_data m)) = None
  /\ next_due updated = compute_next_due medication_data (now h)
  /\ status updated =
       derive_status medication_data (dose_history m)
         (compute_next_due medication_data (now h)) (now h)
  /\ exists m',
       medications (snd r) !! medication_id = Some m'
       /\ data m' = medication_data
       /\ dose_history m' = dose_history m
       /\ id m' = id m.
Proof.
  intros Hm r updated.
  destruct (async_update_medication_known h medication_id medication_data c m Hm)
    as [Hr Hl].
  specialize (Hl medication_id). rewrite decide_True in Hl by reflexivity.
  simpl in Hl.
  split; [exact Hr|]. split; [exact Hl|]. split; [reflexivity|].
  split; [reflexivity|]. split; [reflexivity|].
  eexists. split; [exact Hl|].
  unfold refreshed. destruct (refresh_immediately h); repeat split; reflexivity.
Qed.

(* --------------------------------------------------------------------- *)
(* The update_medication service                                          *)
(* --------------------------------------------------------------------- *)

Lemma updated_data_last_refill_date h call current :
  last_refill_date (updated_data h call current) = last_refill_date current.
Proof. reflexivity. Qed.

(* --------------------------------------------------------------------- *)
(* What take_medication and update_supply leave behind                    *)
(* --------------------------------------------------------------------- *)

Lemma coordinator_eta c :
  mk_MedicationCoordinator (medications c) (bus c) (store c) = c.
Proof. destruct c; reflexivity. Qed.

Lemma async_take_medication_known h i t c m :
  medications c !! i = Some m ->
  async_take_medication h i t c =
  (true,
   mk_MedicationCoordinator
     (update_status (now h) <$> <[i := taken_entry h t m]> (medications c))
     (bus c ++
      if supply_tracking_enabled (data m) && negb (is_low_supply m)
         && is_low_supply (taken_entry h t m)
      then [low_supply_event_data h (taken_entry h t m)] else [])
     (Some (to_dict <$> <[i := taken_entry h t m]> (medications c)))).
Proof.
  intros Hm. unfold async_take_medication, taken_entry. rewrite Hm.
  change (match t with Some t0 => t0 | None => now h end) with (or_now h t).
  change (supply_tracking_enabled (data (record_dose_taken (now h) (or_now h t) m)))
    with (supply_tracking_enabled (data m)).
  unfold async_refresh.
  destruct (supply_tracking_enabled (data m)); simpl.
  - destruct (negb (is_low_supply m)
              && is_low_supply (decrement_supply (record_dose_taken (now h) (or_now h t) m)));
      simpl; rewrite _async_update_data_saved; simpl; rewrite ?app_nil_r; reflexivity.
  - rewrite _async_update_data_saved. simpl. rewrite app_nil_r. reflexivity.
Qed.

Lemma async_update_supply_known h i v c m :
  medications c !! i = Some m ->
  supply_tracking_enabled (data m) = true ->
  let m' := set_data (set_current_supply (Some v) (data m)) m in
  snd (async_update_supply h i v c) =
  async_request_refresh h
    (async_save_medications
       (mk_MedicationCoordinator (<[i := m']> (medications c))
          (bus c ++ if negb (is_low_supply m) && is_low_supply m'
                    then [low_supply_event_data h m'] else [])
          (store c))).
Proof.
  intros Hm Hen. unfold async_update_supply. rewrite Hm, Hen. simpl.
  destruct (negb (is_low_supply m)
            && is_low_supply (set_data (set_current_supply (Some v) (data m)) m));
    simpl; rewrite ?app_nil_r; reflexivity.
Qed.

Lemma taken_entry_id h t m : id (taken_entry h t m) = id m.
Proof.
  unfold taken_entry, decrement_supply. simpl.
  destruct (supply_tracking_enabled (data m)); [|reflexivity].
  destruct (current_supply (data m)); reflexivity.
Qed.

Lemma taken_entry_supply h t m s :
  supply_tracking_enabled (data (taken_entry h t m)) = true ->
  current_supply (data (taken_entry h t m)) = Some s ->
  0 <= s.
Proof.
  unfold taken_entry, decrement_supply. simpl.
  destruct (supply_tracking_enabled (data m)) eqn:Hen; simpl.
  - destruct (current_supply (data m)) as [s0|] eqn:Hs; simpl.
    + intros _ [= <-]. lia.
    + rewrite Hs. discriminate.
  - rewrite Hen. discriminate.
Qed.

(* --------------------------------------------------------------------- *)
(* last_refill_date is set by refill alone                                *)
(* --------------------------------------------------------------------- *)

Lemma taken_entry_last_refill_date h t m :
  last_refill_date (data (taken_entry h t m)) = last_refill_date (data m).
Proof.
  unfold taken_entry, decrement_supply. simpl.
  destruct (supply_tracking_enabled (data m)); [|reflexivity].
  destruct (current_supply (data m)); reflexivity.
Qed.

(* an operation that stores m2 for m under i and maps g over the registry *)
Lemma same_refill_dates_store (g : MedicationEntry -> MedicationEntry) i m m2 c c' :
  (forall x, data (g x) = data x) ->
  medications c !! i = Some m ->
  last_refill_date (data m2) = last_refill_date (data m) ->
  (forall j, medications c' !! j = g <$> (<[i := m2]> (medications c) !! j)) ->
  same_refill_dates c c'.
Proof.
  intros Hg Hm H2 Hc' j mj Hj. rewrite Hc', lookup_insert.
  destruct (decide (i = j)) as [Heq|Hne]; simpl.
  - eexists. split; [reflexivity|]. rewrite Hg, H2. congruence.
  - rewrite Hj. simpl. eexists. split; [reflexivity|]. rewrite Hg. reflexivity.
Qed.

Lemma same_refill_dates_refl c : same_refill_dates c c.
Proof. intros j m Hj. eauto. Qed.

Lemma take_keeps_refill_dates h i t c :
  same_refill_dates c (snd (async_take_medication h i t c)).
Proof.
  destruct (medications c !! i) as [m|] eqn:Hm.
  - rewrite (async_take_medication_known h i t c m Hm). cbn [snd].
    apply (same_refill_dates_store (update_status (now h)) i m (taken_entry h t m));
      auto using taken_entry_last_refill_date.
    intros j. cbn [medications]. apply lookup_fmap.
  - unfold async_take_medication. rewrite Hm. apply same_refill_dates_refl.
Qed.

Lemma skip_keeps_refill_dates h i t c :
  same_refill_dates c (snd (async_skip_medication h i t c)).
Proof.
  unfold async_skip_medication.
  destruct (medications c !! i) as [m|] eqn:Hm; [|apply same_refill_dates_refl].
  cbn [snd].
  apply (same_refill_dates_store (update_status (now h)) i m
           (record_dose_skipped (now h) (or_now h t) m)); auto.
  intros j. rewrite lookup_async_refresh. reflexivity.
Qed.

Lemma update_supply_keeps_refill_dates h i v c :
  same_refill_dates c (snd (async_update_supply h i v c)).
Proof.
  destruct (medications c !! i) as [m|] eqn:Hm;
    [|unfold async_update_supply; rewrite Hm; apply same_refill_dates_refl].
  destruct (supply_tracking_enabled (data m)) eqn:Hen;
    [|unfold async_update_supply; rewrite Hm, Hen; apply same_refill_dates_refl].
  rewrite (async_update_supply_known h i v c m Hm Hen).
  apply (same_refill_dates_store (refreshed h) i m
           (set_data (set_current_supply (Some v) (data m)) m));
    auto using refreshed_data.
  intros j. rewrite lookup_async_request_refresh. reflexivity.
Qed.

Lemma update_service_keeps_refill_dates h call c :
  same_refill_dates c (handle_update_medication h call c).
Proof.
  unfold handle_update_medication, get_medication.
  destruct (medications c !! call_medication_id call) as [cur|] eqn:Hcur;
    [|apply same_refill_dates_refl].
  destruct (async_update_medication_known h (call_medication_id call)
              (updated_data h call (data cur)) c cur Hcur) as [_ Hl].
  apply (same_refill_dates_store (refreshed h) (call_medication_id call) cur
           (update_status (now h)
              (reset_schedule (set_data (updated_data h call (data cur)) cur))));
    auto using refreshed_data.
  intros j. rewrite Hl, lookup_insert.
  destruct (decide (call_medication_id call = j)); reflexivity.
Qed.

(** C9: whatever optional fields a call of the update_medication service
    carries, the MedicationData it builds has the last_refill_date of the
    entry it replaces, and after the handler every registered medication
    has the last_refill_date it had before; take, skip and update_supply
    leave every last_refill_date alone as well, so that of the operations
    on a registered medication only refill sets it. *)
Theorem update_service_keeps_last_refill_date (h : Host) (call : UpdateMedicationCall)
    (c : MedicationCoordinator) (medication_id : string) (m : MedicationEntry) :
  medications c !! medication_id = Some m ->
  last_refill_date (updated_data h call (data m)) = last_refill_date (data m)
  /\ (exists m',
        medications (handle_update_medication h call c) !! medication_id = Some m'
        /\ last_refill_date (data m') = last_refill_date (data m))
  /\ (forall i t, same_refill_dates c (snd (async_take_medication h i t c)))
  /\ (forall i t, same_refill_dates c (snd (async_skip_medication h i t c)))
  /\ (forall i v, same_refill_dates c (snd (async_update_supply h i v c))).
Proof.
  intros Hm. split; [reflexivity|].
  split; [apply (update_service_keeps_refill_dates h call c medication_id m Hm)|].
  split; [intros; apply take_keeps_refill_dates|].
  split; [intros; apply skip_keeps_refill_dates|intros; apply update_supply_keeps_refill_dates].
Qed.

(* --------------------------------------------------------------------- *)
(* The supply never becomes negative                                      *)
(* --------------------------------------------------------------------- *)

Lemma decrement_supply_non_negative m s :
  supply_tracking_enabled (data m) = true ->
  current_supply (data m) = Some s ->
  current_supply (data (decrement_supply m)) = Some (Z.max 0 (s - pills_per_dose (data m)))
  /\ 0 <= Z.max 0 (s - pills_per_dose (data m)).
Proof.
  intros Hen Hs. unfold decrement_supply. rewrite Hen, Hs. simpl. split; [reflexivity|lia].
Qed.

Lemma take_keeps_supply_invariant h i t c :
  supply_invariant c -> supply_invariant (snd (async_take_medication h i t c)).
Proof.
  intros Hinv. destruct (medications c !! i) as [m|] eqn:Hm.
  - rewrite (async_take_medication_known h i t c m Hm). simpl.
    intros j mj s Hj. cbn [medications] in Hj. rewrite lookup_fmap, lookup_insert in Hj.
    destruct (decide (i = j)) as [->|Hne]; simpl in Hj.
    + injection Hj as <-. rewrite !update_status_data. apply taken_entry_supply.
    + destruct (medications c !! j) as [m0|] eqn:H0; [|discriminate].
      injection Hj as <-. rewrite !update_status_data. apply (Hinv j m0 s H0).
  - unfold async_take_medication. rewrite Hm. exact Hinv.
Qed.

Lemma refill_keeps_supply_invariant h i n t c :
  0 <= n ->
  supply_invariant c -> supply_invariant (snd (async_refill_medication h i n t c)).
Proof.
  intros Hn Hinv. unfold async_refill_medication.
  destruct (medications c !! i) as [m|] eqn:Hm; [|exact Hinv].
  destruct (supply_tracking_enabled (data m)) eqn:Hen; [|exact Hinv].
  simpl. intros j mj s Hj. rewrite lookup_async_request_refresh in Hj.
  simpl in Hj. rewrite lookup_insert in Hj.
  destruct (decide (i = j)) as [->|Hne]; simpl in Hj.
  + injection Hj as <-. rewrite !refreshed_data. simpl. intros _ [= <-].
    assert (0 <= or_zero (current_supply (data m))); [|lia].
    destruct (current_supply (data m)) as [s0|] eqn:Hs; [|simpl; lia].
    rewrite or_zero_Some. apply (Hinv j m s0 Hm Hen Hs).
  + destruct (medications c !! j) as [m0|] eqn:H0; [|discriminate].
    injection Hj as <-. rewrite !refreshed_data. apply (Hinv j m0 s H0).
Qed.

Lemma update_supply_keeps_supply_invariant h i v c :
  0 <= v ->
  supply_invariant c -> supply_invariant (snd (async_update_supply h i v c)).
Proof.
  intros Hv Hinv.
  destruct (medications c !! i) as [m|] eqn:Hm;
    [|unfold async_update_supply; rewrite Hm; exact Hinv].
  destruct (supply_tracking_enabled (data m)) eqn:Hen;
    [|unfold async_update_supply; rewrite Hm, Hen; exact Hinv].
  rewrite (async_update_supply_known h i v c m Hm Hen).
  intros j mj s Hj. rewrite lookup_async_request_refresh in Hj.
  simpl in Hj. rewrite lookup_insert in Hj.
  destruct (decide (i = j)) as [->|Hne]; simpl in Hj.
  + injection Hj as <-. rewrite !refreshed_data. simpl. intros _ [= <-]. exact Hv.
  + destruct (medications c !! j) as [m0|] eqn:H0; [|discriminate].
    injection Hj as <-. rewrite !refreshed_data. apply (Hinv j m0 s H0).
Qed.

(** C3 (as amended): in a registry where every tracked medication with a
    supply count has a count >= 0, take_medication keeps it so whatever
    pills_per_dose is, and refill and update_supply keep it so when the
    amount, respectively the new value, is not negative (which is what the
    service schemas let through); decrement_supply itself leaves
    max(0, supply - pills_per_dose), never a negative count. *)
Theorem supply_stays_non_negative (h : Host) (medication_id : string)
    (c : MedicationCoordinator) :
  supply_invariant c ->
  (forall t, supply_invariant (snd (async_take_medication h medication_id t c)))
  /\ (forall n t, 0 <= n ->
        supply_invariant (snd (async_refill_medication h medication_id n t c)))
  /\ (forall v, 0 <= v ->
        supply_invariant (snd (async_update_supply h medication_id v c)))
  /\ (forall m s,
        supply_tracking_enabled (data m) = true ->
        current_supply (data m) = Some s ->
        exists s',
          current_supply (data (decrement_supply m)) = Some s' /\ 0 <= s').
Proof.
  intros Hinv. repeat split.
  - intros t. apply take_keeps_supply_invariant. exact Hinv.
  - intros n t Hn. apply refill_keeps_supply_invariant; assumption.
  - intros v Hv. apply update_supply_keeps_supply_invariant; assumption.
  - intros m s Hen Hs.
    destruct (decrement_supply_non_negative m s Hen Hs) as [H1 H2]. eauto.
Qed.

(* --------------------------------------------------------------------- *)
(* The low-supply event is fired on the crossing, and only there          *)
(* --------------------------------------------------------------------- *)

Lemma count_fired_app i l1 l2 :
  count_fired i (l1 ++ l2) = (count_fired i l1 + count_fired i l2)%nat.
Proof. induction l1 as [|ev l1 IH]; simpl; [reflexivity|]. rewrite IH. lia. Qed.

Lemma is_low_supply_untracked m :
  supply_tracking_enabled (data m) = false -> is_low_supply m = false.
Proof. unfold is_low_supply. intros ->. reflexivity. Qed.

Lemma low_at_fmap_update_status t (reg : gmap string MedicationEntry) b st j :
  low_at j (mk_MedicationCoordinator (update_status t <$> reg) b st)
  = low_at j (mk_MedicationCoordinator reg b st).
Proof.
  unfold low_at. simpl. rewrite lookup_fmap.
  destruct (reg !! j); simpl; [apply is_low_supply_update_status|reflexivity].
Qed.

Lemma low_at_async_request_refresh h c j :
  low_at j (async_request_refresh h (async_save_medications c)) = low_at j c.
Proof.
  unfold low_at. rewrite lookup_async_request_refresh.
  destruct (medications c !! j) as [m|]; simpl; [|reflexivity].
  apply is_low_supply_ext; [apply refreshed_data|apply refreshed_dose_history].
Qed.

Lemma low_at_insert i m (reg : gmap string MedicationEntry) b st j :
  low_at j (mk_MedicationCoordinator (<[i := m]> reg) b st)
  = if decide (i = j) then is_low_supply m
    else low_at j (mk_MedicationCoordinator reg b st).
Proof.
  unfold low_at. simpl. rewrite lookup_insert.
  destruct (decide (i = j)); reflexivity.
Qed.

Lemma low_at_same_registry c b st j :
  low_at j (mk_MedicationCoordinator (medications c) b st) = low_at j c.
Proof. reflexivity. Qed.

(* one event about i is counted when the step made i cross, none otherwise *)
Lemma fired_on_crossing_take h i t c j :
  keys_match c ->
  let c' := snd (async_take_medication h i t c) in
  count_fired j (bus c') =
  (count_fired j (bus c) + if crossed j c c' then 1 else 0)%nat.
Proof.
  intros Hkeys c'. unfold c', crossed.
  destruct (medications c !! i) as [m|] eqn:Hm.
  - rewrite (async_take_medication_known h i t c m Hm). cbn [snd bus].
    rewrite low_at_fmap_update_status, low_at_insert, count_fired_app. f_equal.
    destruct (decide (i = j)) as [Heq|Hne].
    + subst j. unfold low_at at 1. rewrite Hm.
      destruct (supply_tracking_enabled (data m)) eqn:Hen; simpl.
      * destruct (negb (is_low_supply m) && is_low_supply (taken_entry h t m)); simpl;
          [|reflexivity].
        rewrite taken_entry_id, (Hkeys i m Hm), decide_True by reflexivity. reflexivity.
      * assert (Hlow : is_low_supply (taken_entry h t m) = false).
        { apply is_low_supply_untracked. unfold taken_entry. simpl. rewrite Hen.
          simpl. exact Hen. }
        rewrite Hlow, andb_false_r. reflexivity.
    + rewrite low_at_same_registry, andb_negb_l.
      destruct (supply_tracking_enabled (data m) && negb (is_low_supply m)
                && is_low_supply (taken_entry h t m)); simpl; [|reflexivity].
      rewrite taken_entry_id, (Hkeys i m Hm), decide_False by exact Hne. reflexivity.
  - unfold async_take_medication. rewrite Hm. simpl. rewrite andb_negb_l. lia.
Qed.

Lemma fired_on_crossing_update_supply h i v c j :
  keys_match c ->
  let c' := snd (async_update_supply h i v c) in
  count_fired j (bus c') =
  (count_fired j (bus c) + if crossed j c c' then 1 else 0)%nat.
Proof.
  intros Hkeys c'. unfold c', crossed.
  destruct (medications c !! i) as [m|] eqn:Hm;
    [|unfold async_update_supply; rewrite Hm; simpl; rewrite andb_negb_l; lia].
  destruct (supply_tracking_enabled (data m)) eqn:Hen;
    [|unfold async_update_supply; rewrite Hm, Hen; simpl; rewrite andb_negb_l; lia].
  rewrite (async_update_supply_known h i v c m Hm Hen).
  rewrite bus_async_request_refresh, low_at_async_request_refresh.
  rewrite bus_async_save_medications. cbn [bus].
  rewrite low_at_insert, count_fired_app. f_equal.
  destruct (decide (i = j)) as [Heq|Hne].
  - subst j. unfold low_at at 1. rewrite Hm.
    destruct (negb (is_low_supply m)
              && is_low_supply (set_data (set_current_supply (Some v) (data m)) m));
      simpl; [|reflexivity].
    rewrite (Hkeys i m Hm), decide_True by reflexivity. reflexivity.
  - rewrite low_at_same_registry, andb_negb_l.
    destruct (negb (is_low_supply m)
              && is_low_supply (set_data (set_current_supply (Some v) (data m)) m));
      simpl; [|reflexivity].
    rewrite (Hkeys i m Hm), decide_False by exact Hne. reflexivity.
Qed.

Lemma loads_nothing_of_lookup c i m :
  medications c !! i = Some m -> loads_nothing c.
Proof.
  intros Hm He. rewrite (registry_is_empty_lookup _ _ _ Hm) in He. discriminate.
Qed.

Lemma _async_update_data_settled h c :
  loads_nothing c ->
  _async_update_data h c =
  mk_MedicationCoordinator (update_status (now h) <$> medications c) (bus c) (store c).
Proof.
  intros Hload. unfold _async_update_data.
  destruct (registry_is_empty (medications c)) eqn:He; [|reflexivity].
  specialize (Hload He). unfold async_load_medications.
  destruct (store c) as [stored|] eqn:Hs; [|rewrite Hs; reflexivity].
  subst stored. cbn [medications bus store].
  rewrite fmap_empty, (left_id_L ∅ (∪)). reflexivity.
Qed.

Lemma fired_on_crossing h op c j :
  keys_match c ->
  loads_nothing c ->
  count_fired j (bus (perform h op c)) =
  (count_fired j (bus c) + if crossed j c (perform h op c) then 1 else 0)%nat.
Proof.
  intros Hkeys Hload. destruct op as [i t|i v|]; cbn [perform].
  - apply fired_on_crossing_take. exact Hkeys.
  - apply fired_on_crossing_update_supply. exact Hkeys.
  - unfold crossed. rewrite (_async_update_data_settled h c Hload).
    rewrite low_at_fmap_update_status.
    rewrite low_at_same_registry, andb_negb_l. cbn [bus]. lia.
Qed.

Lemma keys_match_fmap_insert (f : MedicationEntry -> MedicationEntry) i m m' c b st :
  (forall x, id (f x) = id x) ->
  keys_match c ->
  medications c !! i = Some m ->
  id m' = id m ->
  keys_match (mk_MedicationCoordinator (f <$> <[i := m']> (medications c)) b st).
Proof.
  intros Hf Hkeys Hm Hid j mj Hj. cbn [medications] in Hj.
  rewrite lookup_fmap, lookup_insert in Hj.
  destruct (decide (i = j)) as [Heq|Hne]; simpl in Hj.
  - injection Hj as <-. rewrite Hf, Hid, <- Heq. apply (Hkeys i m Hm).
  - destruct (medications c !! j) as [m0|] eqn:H0; [|discriminate].
    injection Hj as <-. rewrite Hf. apply (Hkeys j m0 H0).
Qed.

Lemma keys_match_take h i t c :
  keys_match c -> keys_match (snd (async_take_medication h i t c)).
Proof.
  intros Hkeys. destruct (medications c !! i) as [m|] eqn:Hm.
  - rewrite (async_take_medication_known h i t c m Hm). cbn [snd].
    apply (keys_match_fmap_insert _ i m); auto using taken_entry_id.
  - unfold async_take_medication. rewrite Hm. exact Hkeys.
Qed.

Lemma keys_match_update_supply h i v c :
  keys_match c -> keys_match (snd (async_update_supply h i v c)).
Proof.
  intros Hkeys.
  destruct (medications c !! i) as [m|] eqn:Hm;
    [|unfold async_update_supply; rewrite Hm; exact Hkeys].
  destruct (supply_tracking_enabled (data m)) eqn:Hen;
    [|unfold async_update_supply; rewrite Hm, Hen; exact Hkeys].
  rewrite (async_update_supply_known h i v c m Hm Hen).
  intros j mj Hj. rewrite lookup_async_request_refresh in Hj.
  cbn [medications] in Hj. rewrite lookup_insert in Hj.
  assert (Hid : forall x, id (refreshed h x) = id x).
  { intros x. unfold refreshed. destruct (refresh_immediately h); reflexivity. }
  destruct (decide (i = j)) as [Heq|Hne]; simpl in Hj.
  - injection Hj as <-. rewrite Hid. simpl. rewrite <- Heq. apply (Hkeys i m Hm).
  - destruct (medications c !! j) as [m0|] eqn:H0; [|discriminate].
    injection Hj as <-. rewrite Hid. apply (Hkeys j m0 H0).
Qed.

Lemma keys_match_evaluate h c :
  keys_match c -> loads_nothing c -> keys_match (_async_update_data h c).
Proof.
  intros Hkeys Hload j mj Hj. rewrite (_async_update_data_settled h c Hload) in Hj.
  cbn [medications] in Hj. rewrite lookup_fmap in Hj.
  destruct (medications c !! j) as [m0|] eqn:H0; [|discriminate].
  injection Hj as <-. rewrite update_status_id. apply (Hkeys j m0 H0).
Qed.

Lemma keys_match_perform h op c :
  keys_match c -> loads_nothing c -> keys_match (perform h op c).
Proof.
  intros Hkeys Hload. destruct op as [i t|i v|]; cbn [perform].
  - apply keys_match_take. exact Hkeys.
  - apply keys_match_update_supply. exact Hkeys.
  - apply keys_match_evaluate; assumption.
Qed.

Lemma loads_nothing_perform h op c :
  loads_nothing c -> loads_nothing (perform h op c).
Proof.
  intros Hload. destruct op as [i t|i v|]; cbn [perform].
  - destruct (medications c !! i) as [m|] eqn:Hm.
    + rewrite (async_take_medication_known h i t c m Hm). cbn [snd].
      apply (loads_nothing_of_lookup _ i (update_status (now h) (taken_entry h t m))).
      cbn [medications]. rewrite lookup_fmap, lookup_insert_eq. reflexivity.
    + unfold async_take_medication. rewrite Hm. exact Hload.
  - destruct (medications c !! i) as [m|] eqn:Hm;
      [|unfold async_update_supply; rewrite Hm; exact Hload].
    destruct (supply_tracking_enabled (data m)) eqn:Hen;
      [|unfold async_update_supply; rewrite Hm, Hen; exact Hload].
    rewrite (async_update_supply_known h i v c m Hm Hen).
    apply (loads_nothing_of_lookup _ i
             (refreshed h (set_data (set_current_supply (Some v) (data m)) m))).
    rewrite lookup_async_request_refresh. cbn [medications].
    rewrite lookup_insert_eq. reflexivity.
  - rewrite (_async_update_data_settled h c Hload). intros He.
    cbn [medications store] in *. apply registry_is_empty_true in He.
    apply fmap_empty_inv in He. apply Hload. rewrite He.
    apply registry_is_empty_empty.
Qed.

(* add_medication is where entries come to be stored under their id *)
Lemma keys_match_add h d c :
  keys_match c -> keys_match (snd (async_add_medication h d c)).
Proof.
  intros Hkeys j mj Hj. unfold async_add_medication in Hj. cbn [snd] in Hj.
  rewrite lookup_async_request_refresh in Hj. cbn [medications] in Hj.
  rewrite lookup_insert in Hj.
  assert (Hid : forall x, id (refreshed h x) = id x).
  { intros x. unfold refreshed. destruct (refresh_immediately h); reflexivity. }
  destruct (decide (id (MedicationEntry_new (uuid4 h)
                          match start_date d with
                          | Some _ => d
                          | None =>
                              set_start_date
                                (Some (start_of_local_day (DEFAULT_TIME_ZONE h)
                                         (date_of (now h)))) d
                          end) = j)) as [Heq|Hne]; simpl in Hj.
  - injection Hj as <-. rewrite Hid. exact Heq.
  - destruct (medications c !! j) as [m0|] eqn:H0; [|discriminate].
    injection Hj as <-. rewrite Hid. apply (Hkeys j m0 H0).
Qed.

Lemma fired_along_run steps : forall c j,
  keys_match c ->
  loads_nothing c ->
  count_fired j (bus (run steps c)) =
  (count_fired j (bus c) + crossings j steps c)%nat.
Proof.
  induction steps as [|[h op] rest IH]; intros c j Hkeys Hload; simpl.
  - lia.
  - rewrite IH by (apply keys_match_perform || apply loads_nothing_perform; assumption).
    rewrite (fired_on_crossing h op c j Hkeys Hload). lia.
Qed.

(** C1: in a registry that stores every entry under its own id, for every
    medication: take_medication and update_supply fire a low-supply event
    about it exactly when its is_low_supply was false before the operation
    and is true after it, and then fire one; the periodic evaluation of the
    statuses fires none, and leaves is_low_supply as it is unless it is the
    evaluation that loads the Store into the empty registry; an operation
    that starts with is_low_supply already true fires none; and over any
    run of these operations that does not start with that load, the events
    fired about the medication are as many as the crossings of its
    is_low_supply from false to true. *)
Theorem low_supply_event_is_edge_triggered (medication_id : string)
    (c : MedicationCoordinator) :
  keys_match c ->
  (forall h i t,
     let c' := snd (async_take_medication h i t c) in
     count_fired medication_id (bus c') =
     (count_fired medication_id (bus c)
      + if negb (low_at medication_id c) && low_at medication_id c' then 1 else 0)%nat)
  /\ (forall h i v,
       let c' := snd (async_update_supply h i v c) in
       count_fired medication_id (bus c') =
       (count_fired medication_id (bus c)
        + if negb (low_at medication_id c) && low_at medication_id c' then 1 else 0)%nat)
  /\ (forall h, bus (_async_update_data h c) = bus c
                /\ (loads_nothing c ->
                    low_at medication_id (_async_update_data h c) = low_at medication_id c))
  /\ (forall h op,
       low_at medication_id c = true ->
       count_fired medication_id (bus (perform h op c)) = count_fired medication_id (bus c))
  /\ (loads_nothing c ->
      forall steps,
        count_fired medication_id (bus (run steps c)) =
        (count_fired medication_id (bus c) + crossings medication_id steps c)%nat).
Proof.
  intros Hkeys.
  split; [|split; [|split; [|split]]].
  - intros h i t. apply (fired_on_crossing_take h i t c medication_id Hkeys).
  - intros h i v. apply (fired_on_crossing_update_supply h i v c medication_id Hkeys).
  - intros h. split; [apply bus_async_update_data|].
    intros Hload. rewrite (_async_update_data_settled h c Hload).
    rewrite low_at_fmap_update_status. apply low_at_same_registry.
  - intros h op Hlow.
    assert (Hload : loads_nothing c).
    { unfold low_at in Hlow.
      destruct (medications c !! medication_id) as [m|] eqn:Hm; [|discriminate].
      apply (loads_nothing_of_lookup c medication_id m Hm). }
    rewrite (fired_on_crossing h op c medication_id Hkeys Hload).
    unfold crossed. rewrite Hlow. simpl. lia.
  - intros Hload steps. apply fired_along_run; assumption.
Qed.

(* --------------------------------------------------------------------- *)
(* The calendar view                                                      *)
(* --------------------------------------------------------------------- *)

Lemma insert_by_start_perm e l : Permutation (insert_by_start e l) (e :: l).
Proof.
  induction l as [|x l IH]; simpl; [reflexivity|].
  destruct (dt_leb (ev_start e) (ev_start x)); [reflexivity|].
  rewrite IH. apply perm_swap.
Qed.

Lemma sort_by_start_perm l : Permutation (sort_by_start l) l.
Proof.
  induction l as [|e l IH]; simpl; [reflexivity|].
  rewrite insert_by_start_perm. apply perm_skip. exact IH.
Qed.



Lemma append_dose_events_spec s e i m : forall events,
  append_dose_events s e i m events = events ++ dose_entries_spec s e i m.
Proof.
  unfold append_dose_events, dose_entries_spec.
  induction (dose_history m) as [|r l IH]; intros events; simpl.
  - rewrite app_nil_r. reflexivity.
  - destruct (date_in_range s e (date_of (timestamp r))); simpl.
    + rewrite IH, <- app_assoc. reflexivity.
    + apply IH.
Qed.

Lemma append_refill_event_spec today s e i m events :
  append_refill_event today s e i m events =
  events ++ refill_entries_spec today s e i m.
Proof.
  unfold append_refill_event, refill_entries_spec.
  destruct (supply_tracking_enabled (data m) && show_refill_on_calendar (data m));
    destruct (estimated_refill_date today m) as [d|]; simpl;
    rewrite ?app_nil_r; try reflexivity.
  destruct (date_in_range s e d); rewrite ?app_nil_r; reflexivity.
Qed.

Lemma collected_events_spec today s e medications : forall events,
  fold_left
    (fun events '(medication_id, medication) =>
       let events := append_dose_events s e medication_id medication events in
       append_refill_event today s e medication_id medication events)
    medications events
  = events ++ calendar_view_spec today medications s e.
Proof.
  induction medications as [|[i m] l IH]; intros events; simpl.
  - rewrite app_nil_r. reflexivity.
  - rewrite IH, append_refill_event_spec, append_dose_events_spec.
    rewrite <- !app_assoc. reflexivity.
Qed.



(* --------------------------------------------------------------------- *)
(* Behind the service schemas the supply invariant needs no side          *)
(* condition                                                              *)
(* --------------------------------------------------------------------- *)

Lemma positive_int_non_negative raw n : positive_int raw = Some n -> 0 <= n.
Proof.
  unfold positive_int. destruct (Z.leb_spec 0 raw); [|discriminate].
  intros [= <-]. assumption.
Qed.

Lemma services_keep_supply_invariant h i raw t c :
  supply_invariant c ->
  supply_invariant (handle_refill_medication h i raw t c)
  /\ supply_invariant (handle_update_supply h i raw c).
Proof.
  intros Hinv. unfold handle_refill_medication, handle_update_supply.
  destruct (positive_int raw) as [n|] eqn:Hraw; [|split; exact Hinv].
  apply positive_int_non_negative in Hraw.
  destruct (get_medication i c); [|split; exact Hinv].
  split.
  - apply refill_keeps_supply_invariant; assumption.
  - apply update_supply_keeps_supply_invariant; assumption.
Qed.

(* --------------------------------------------------------------------- *)
(* The registry after each operation                                      *)
(* --------------------------------------------------------------------- *)

Lemma medications_async_request_refresh h c :
  medications (async_request_refresh h (async_save_medications c))
  = refreshed h <$> medications c.
Proof.
  apply map_eq. intros j. rewrite lookup_async_request_refresh, lookup_fmap.
  reflexivity.
Qed.

Lemma refreshed_id h m : id (refreshed h m) = id m.
Proof. unfold refreshed. destruct (refresh_immediately h); reflexivity. Qed.

Lemma same_record_refreshed h m : same_record m (refreshed h m).
Proof.
  repeat split; [apply refreshed_id|apply refreshed_data|apply refreshed_dose_history].
Qed.

Lemma same_record_update_status t m : same_record m (update_status t m).
Proof. repeat split. Qed.


Lemma async_add_medication_shape h d c :
  exists m,
    id m = uuid4 h /\ dose_history m = []
    /\ medications (snd (async_add_medication h d c)) =
       refreshed h <$> <[uuid4 h := m]> (medications c).
Proof.
  unfold async_add_medication. cbn [snd]. eexists. split; [|split].
  3: { rewrite medications_async_request_refresh. reflexivity. }
  all: reflexivity.
Qed.

Lemma async_update_medication_shape h i d c :
  medications (snd (async_update_medication h i d c)) =
  match medications c !! i with
  | Some m =>
      refreshed h <$>
        <[i := update_status (now h) (reset_schedule (set_data d m))]> (medications c)
  | None => medications c
  end.
Proof.
  unfold async_update_medication. destruct (medications c !! i); [|reflexivity].
  cbn [snd]. apply medications_async_request_refresh.
Qed.

Lemma async_take_medication_shape h i t c :
  medications (snd (async_take_medication h i t c)) =
  match medications c !! i with
  | Some m => update_status (now h) <$> <[i := taken_entry h t m]> (medications c)
  | None => medications c
  end.
Proof.
  destruct (medications c !! i) as [m|] eqn:Hm.
  - rewrite (async_take_medication_known h i t c m Hm). reflexivity.
  - unfold async_take_medication. rewrite Hm. reflexivity.
Qed.

Lemma async_skip_medication_shape h i t c :
  medications (snd (async_skip_medication h i t c)) =
  match medications c !! i with
  | Some m =>
      update_status (now h) <$>
        <[i := record_dose_skipped (now h) (or_now h t) m]> (medications c)
  | None => medications c
  end.
Proof.
  unfold async_skip_medication. destruct (medications c !! i); [|reflexivity].
  cbn [snd]. unfold async_refresh. rewrite _async_update_data_saved. reflexivity.
Qed.

Lemma async_refill_medication_shape h i n t c :
  medications (snd (async_refill_medication h i n t c)) =
  match medications c !! i with
  | Some m =>
      if supply_tracking_enabled (data m) then
        refreshed h <$>
          <[i := set_data
                   (set_last_refill_date (Some (or_now h t))
                      (set_current_supply
                         (Some (or_zero (current_supply (data m)) + n)) (data m))) m]>
            (medications c)
      else medications c
  | None => medications c
  end.
Proof.
  unfold async_refill_medication. destruct (medications c !! i) as [m|]; [|reflexivity].
  destruct (supply_tracking_enabled (data m)); [|reflexivity].
  cbn [negb snd]. apply medications_async_request_refresh.
Qed.

Lemma async_update_supply_shape h i v c :
  medications (snd (async_update_supply h i v c)) =
  match medications c !! i with
  | Some m =>
      if supply_tracking_enabled (data m) then
        refreshed h <$>
          <[i := set_data (set_current_supply (Some v) (data m)) m]> (medications c)
      else medications c
  | None => medications c
  end.
Proof.
  destruct (medications c !! i) as [m|] eqn:Hm;
    [|unfold async_update_supply; rewrite Hm; reflexivity].
  destruct (supply_tracking_enabled (data m)) eqn:Hen;
    [|unfold async_update_supply; rewrite Hm, Hen; reflexivity].
  rewrite (async_update_supply_known h i v c m Hm Hen).
  rewrite medications_async_request_refresh. reflexivity.
Qed.

(* the three ways an operation rewrites the registry *)
Lemma same_at_refl j c : same_at j c c.
Proof. unfold same_at. destruct (medications c !! j); [repeat split|exact I]. Qed.

Lemma same_at_of_registry j c c' :
  medications c' = medications c -> same_at j c c'.
Proof. unfold same_at. intros ->. destruct (medications c !! j); [repeat split|exact I]. Qed.

Lemma same_at_store (g : MedicationEntry -> MedicationEntry) i m2 j c c' :
  (forall x, same_record x (g x)) ->
  medications c' = g <$> <[i := m2]> (medications c) ->
  j <> i -> same_at j c c'.
Proof.
  intros Hg Hc' Hne. unfold same_at.
  rewrite Hc', lookup_fmap, lookup_insert_ne by congruence.
  destruct (medications c !! j); simpl; [apply Hg|exact I].
Qed.


Lemma same_at_fmap (g : MedicationEntry -> MedicationEntry) j c c' :
  (forall x, same_record x (g x)) ->
  medications c' = g <$> medications c ->
  same_at j c c'.
Proof.
  intros Hg Hc'. unfold same_at. rewrite Hc', lookup_fmap.
  destruct (medications c !! j); simpl; [apply Hg|exact I].
Qed.

Lemma dom_store (g : MedicationEntry -> MedicationEntry) i m m2
    (reg : gmap string MedicationEntry) :
  reg !! i = Some m -> dom (g <$> <[i := m2]> reg) = dom reg.
Proof.
  intros Hm. rewrite dom_fmap_L, dom_insert_L.
  apply elem_of_dom_2 in Hm. apply set_eq. intros j.
  rewrite elem_of_union, elem_of_singleton. split; [intros [->|]; assumption|tauto].
Qed.



(** X3: update, take, skip, refill and update_supply never register or
    unregister a medication: the set of registered ids is the same before
    and after, whatever the arguments.  The periodic evaluation keeps the
    ids of a registry that is not empty; in an empty registry it registers
    exactly the ids the Store holds (none without a stored document). *)
Theorem ids_change_by_add_remove_and_load (h : Host) (medication_id : string)
    (c : MedicationCoordinator) :
  (forall d, dom (medications (snd (async_update_medication h medication_id d c)))
             = dom (medications c))
  /\ (forall t, dom (medications (snd (async_take_medication h medication_id t c)))
                = dom (medications c))
  /\ (forall t, dom (medications (snd (async_skip_medication h medication_id t c)))
                = dom (medications c))
  /\ (forall n t, dom (medications (snd (async_refill_medication h medication_id n t c)))
                  = dom (medications c))
  /\ (forall v, dom (medications (snd (async_update_supply h medication_id v c)))
                = dom (medications c))
  /\ dom (medications (_async_update_data h c)) =
     if registry_is_empty (medications c)
     then match store c with
          | Some stored => dom stored
          | None => ∅
          end
     else dom (medications c).
Proof.
  split; [|split; [|split; [|split; [|split]]]]; intros.
  - rewrite async_update_medication_shape.
    destruct (medications c !! medication_id) eqn:Hm; [|reflexivity].
    apply (dom_store _ _ _ _ _ Hm).
  - rewrite async_take_medication_shape.
    destruct (medications c !! medication_id) eqn:Hm; [|reflexivity].
    apply (dom_store _ _ _ _ _ Hm).
  - rewrite async_skip_medication_shape.
    destruct (medications c !! medication_id) eqn:Hm; [|reflexivity].
    apply (dom_store _ _ _ _ _ Hm).
  - rewrite async_refill_medication_shape.
    destruct (medications c !! medication_id) as [m|] eqn:Hm; [|reflexivity].
    destruct (supply_tracking_enabled (data m)); [|reflexivity].
    apply (dom_store _ _ _ _ _ Hm).
  - rewrite async_update_supply_shape.
    destruct (medications c !! medication_id) as [m|] eqn:Hm; [|reflexivity].
    destruct (supply_tracking_enabled (data m)); [|reflexivity].
    apply (dom_store _ _ _ _ _ Hm).
  - unfold _async_update_data.
    destruct (registry_is_empty (medications c)) eqn:He;
      cbn [medications]; rewrite dom_fmap_L; [|reflexivity].
    apply registry_is_empty_true in He. unfold async_load_medications.
    destruct (store c) as [stored|]; cbn [medications]; rewrite He.
    + rewrite dom_union_L, dom_fmap_L, dom_empty_L, (right_id_L ∅ (∪)). reflexivity.
    + apply dom_empty_L.
Qed.

Lemma bus_async_update_supply h i v c :
  exists evs, bus (snd (async_update_supply h i v c)) = bus c ++ evs
              /\ (length evs <= 1)%nat.
Proof.
  destruct (medications c !! i) as [m|] eqn:Hm;
    [|exists []; unfold async_update_supply; rewrite Hm, app_nil_r; split; [reflexivity|simpl; lia]].
  destruct (supply_tracking_enabled (data m)) eqn:Hen;
    [|exists []; unfold async_update_supply; rewrite Hm, Hen, app_nil_r; split;
      [reflexivity|simpl; lia]].
  rewrite (async_update_supply_known h i v c m Hm Hen), bus_async_request_refresh.
  cbn [bus]. eexists. split; [reflexivity|].
  destruct (negb (is_low_supply m) && _); simpl; lia.
Qed.

Lemma bus_async_take_medication h i t c :
  exists evs, bus (snd (async_take_medication h i t c)) = bus c ++ evs
              /\ (length evs <= 1)%nat.
Proof.
  destruct (medications c !! i) as [m|] eqn:Hm.
  - rewrite (async_take_medication_known h i t c m Hm). cbn [snd bus].
    eexists. split; [reflexivity|].
    destruct (supply_tracking_enabled (data m) && _ && _); simpl; lia.
  - exists []. unfold async_take_medication. rewrite Hm, app_nil_r.
    split; [reflexivity|simpl; lia].
Qed.

(** X4: fired events are never withdrawn and only take_medication and
    update_supply fire: add, remove, update, skip, refill and the periodic
    evaluation leave the fired events as they are (a refill or an update
    that brings a medication into low supply announces nothing), and a
    take or an update_supply appends at most one event. *)
Theorem only_take_and_update_supply_fire (h : Host) (medication_id : string)
    (c : MedicationCoordinator) :
  (forall d, bus (snd (async_add_medication h d c)) = bus c)
  /\ bus (snd (async_remove_medication h medication_id c)) = bus c
  /\ (forall d, bus (snd (async_update_medication h medication_id d c)) = bus c)
  /\ (forall t, bus (snd (async_skip_medication h medication_id t c)) = bus c)
  /\ (forall n t, bus (snd (async_refill_medication h medication_id n t c)) = bus c)
  /\ bus (_async_update_data h c) = bus c
  /\ (forall t, exists evs,
        bus (snd (async_take_medication h medication_id t c)) = bus c ++ evs
        /\ (length evs <= 1)%nat)
  /\ (forall v, exists evs,
        bus (snd (async_update_supply h medication_id v c)) = bus c ++ evs
        /\ (length evs <= 1)%nat).
Proof.
  split; [|split; [|split; [|split; [|split; [|split; [|split]]]]]].
  - intros d. unfold async_add_medication. cbn [snd].
    rewrite bus_async_request_refresh. reflexivity.
  - unfold async_remove_medication.
    destruct (medications c !! medication_id); [|reflexivity].
    cbn [snd]. rewrite bus_async_request_refresh. reflexivity.
  - intros d. unfold async_update_medication.
    destruct (medications c !! medication_id); [|reflexivity].
    cbn [snd]. rewrite bus_async_request_refresh. reflexivity.
  - intros t. unfold async_skip_medication.
    destruct (medications c !! medication_id); [|reflexivity].
    cbn [snd]. rewrite bus_async_refresh. reflexivity.
  - intros n t. unfold async_refill_medication.
    destruct (medications c !! medication_id) as [m|]; [|reflexivity].
    destruct (supply_tracking_enabled (data m)); [|reflexivity].
    cbn [negb snd]. rewrite bus_async_request_refresh. reflexivity.
  - apply bus_async_update_data.
  - intros t. apply bus_async_take_medication.
  - intros v. apply bus_async_update_supply.
Qed.

Lemma estimated_refill_date_ext today m1 m2 :
  data m1 = data m2 -> dose_history m1 = dose_history m2 ->
  estimated_refill_date today m1 = estimated_refill_date today m2.
Proof.
  intros Hd Hh.
  unfold estimated_refill_date, days_of_supply_remaining, daily_consumption, doses_per_day.
  rewrite Hd, Hh. reflexivity.
Qed.

Lemma low_supply_event_data_ext h m1 m2 :
  same_record m1 m2 -> low_supply_event_data h m2 = low_supply_event_data h m1.
Proof.
  intros (Hid & Hd & Hh). unfold low_supply_event_data.
  rewrite (estimated_refill_date_ext _ m2 m1 Hd Hh), Hid, Hd. reflexivity.
Qed.

Lemma singleton_of_optional_event (b : bool) (e ev : LowSupplyEvent) (l : list LowSupplyEvent) :
  l ++ (if b then [e] else []) = l ++ [ev] -> b = true /\ ev = e.
Proof.
  intros H. apply app_inv_head in H. destruct b; [|discriminate].
  injection H as <-. split; reflexivity.
Qed.

(** X5: the low-supply event that a take or an update_supply fires
    describes the medication as the operation leaves it: it carries the id,
    the name, the supply count after the operation, pills_per_dose, the
    reminder threshold and the estimated refill date of the stored entry,
    and that entry is in low supply. *)
Theorem low_supply_event_describes_the_result (h : Host) (medication_id : string)
    (c c' : MedicationCoordinator) (ev : LowSupplyEvent) :
  (exists t, c' = snd (async_take_medication h medication_id t c))
  \/ (exists v, c' = snd (async_update_supply h medication_id v c)) ->
  bus c' = bus c ++ [ev] ->
  exists m',
    medications c' !! medication_id = Some m'
    /\ is_low_supply m' = true
    /\ ev_medication_id ev = id m'
    /\ ev_medication_name ev = name (data m')
    /\ ev_current_supply ev = current_supply (data m')
    /\ ev_pills_per_dose ev = pills_per_dose (data m')
    /\ ev_refill_threshold_days ev = refill_reminder_threshold (data m')
    /\ ev_estimated_refill_date ev = estimated_refill_date (date_of (now h)) m'.
Proof.
  intros Hop Hbus.
  assert (Hev : exists m', medications c' !! medication_id = Some m'
                           /\ is_low_supply m' = true
                           /\ ev = low_supply_event_data h m').
  { destruct Hop as [[t ->]|[v ->]].
    - destruct (medications c !! medication_id) as [m|] eqn:Hm.
      + rewrite (async_take_medication_known h medication_id t c m Hm) in *.
        cbn [snd bus medications] in *.
        apply singleton_of_optional_event in Hbus as [Hb ->].
        apply andb_true_iff in Hb as [_ Hlow].
        exists (update_status (now h) (taken_entry h t m)).
        rewrite lookup_fmap, lookup_insert_eq. split; [reflexivity|].
        split; [rewrite is_low_supply_update_status; exact Hlow|].
        symmetry. apply low_supply_event_data_ext, same_record_update_status.
      + unfold async_take_medication in Hbus. rewrite Hm in Hbus. cbn [snd] in Hbus.
        rewrite <- (app_nil_r (bus c)) in Hbus at 1.
        apply app_inv_head in Hbus. discriminate.
    - destruct (medications c !! medication_id) as [m|] eqn:Hm.
      2: { unfold async_update_supply in Hbus. rewrite Hm in Hbus. cbn [snd] in Hbus.
           rewrite <- (app_nil_r (bus c)) in Hbus at 1.
           apply app_inv_head in Hbus. discriminate. }
      destruct (supply_tracking_enabled (data m)) eqn:Hen.
      2: { unfold async_update_supply in Hbus. rewrite Hm, Hen in Hbus.
           cbn [negb snd] in Hbus.
           rewrite <- (app_nil_r (bus c)) in Hbus at 1.
           apply app_inv_head in Hbus. discriminate. }
      rewrite (async_update_supply_known h medication_id v c m Hm Hen) in *.
      rewrite bus_async_request_refresh in Hbus. cbn [bus] in Hbus.
      apply singleton_of_optional_event in Hbus as [Hb ->].
      apply andb_true_iff in Hb as [_ Hlow].
      rewrite lookup_async_request_refresh. cbn [medications].
      rewrite lookup_insert_eq. eexists. split; [reflexivity|].
      split.
      * rewrite (is_low_supply_ext _ (set_data (set_current_supply (Some v) (data m)) m));
          [exact Hlow|apply refreshed_data|apply refreshed_dose_history].
      * symmetry. apply low_supply_event_data_ext, same_record_refreshed. }
  destruct Hev as (m' & Hm' & Hlow & ->).
  exists m'. repeat split; assumption || reflexivity.
Qed.

(** X6: an operation on one medication leaves every other medication of
    the registry with the id, data and ledger it had (at most its status is
    recomputed), and an add does so for all that were registered under
    another id.  The periodic evaluation does so for all medications of a
    registry that is not empty; on an empty registry it registers, under
    each key of the Store, the entry rebuilt from the stored document and
    evaluated, and nothing when there is no stored document. *)
Theorem other_medications_are_untouched (h : Host) (medication_id : string)
    (c : MedicationCoordinator) :
  (forall d, untouched_except medication_id c
               (snd (async_update_medication h medication_id d c)))
  /\ (forall t, untouched_except medication_id c
                  (snd (async_take_medication h medication_id t c)))
  /\ (forall t, untouched_except medication_id c
                  (snd (async_skip_medication h medication_id t c)))
  /\ (forall n t, untouched_except medication_id c
                    (snd (async_refill_medication h medication_id n t c)))
  /\ (forall v, untouched_except medication_id c
                  (snd (async_update_supply h medication_id v c)))
  /\ (forall d, untouched_except (uuid4 h) c (snd (async_add_medication h d c)))
  /\ (registry_is_empty (medications c) = false ->
      forall j, same_at j c (_async_update_data h c))
  /\ (registry_is_empty (medications c) = true ->
      forall j,
        medications (_async_update_data h c) !! j =
        match store c with
        | Some stored => (fun d => update_status (now h) (from_dict d)) <$> stored !! j
        | None => None
        end).
Proof.
  split; [|split; [|split; [|split; [|split; [|split; [|split]]]]]].
  - intros d j Hne.
    pose proof (async_update_medication_shape h medication_id d c) as Hs.
    destruct (medications c !! medication_id); [|apply same_at_of_registry; exact Hs].
    apply (same_at_store _ _ _ _ _ _ (same_record_refreshed h) Hs Hne).
  - intros t j Hne.
    pose proof (async_take_medication_shape h medication_id t c) as Hs.
    destruct (medications c !! medication_id); [|apply same_at_of_registry; exact Hs].
    apply (same_at_store _ _ _ _ _ _ (same_record_update_status (now h)) Hs Hne).
  - intros t j Hne.
    pose proof (async_skip_medication_shape h medication_id t c) as Hs.
    destruct (medications c !! medication_id); [|apply same_at_of_registry; exact Hs].
    apply (same_at_store _ _ _ _ _ _ (same_record_update_status (now h)) Hs Hne).
  - intros n t j Hne.
    pose proof (async_refill_medication_shape h medication_id n t c) as Hs.
    destruct (medications c !! medication_id) as [m|];
      [|apply same_at_of_registry; exact Hs].
    destruct (supply_tracking_enabled (data m)); [|apply same_at_of_registry; exact Hs].
    apply (same_at_store _ _ _ _ _ _ (same_record_refreshed h) Hs Hne).
  - intros v j Hne.
    pose proof (async_update_supply_shape h medication_id v c) as Hs.
    destruct (medications c !! medication_id) as [m|];
      [|apply same_at_of_registry; exact Hs].
    destruct (supply_tracking_enabled (data m)); [|apply same_at_of_registry; exact Hs].
    apply (same_at_store _ _ _ _ _ _ (same_record_refreshed h) Hs Hne).
  - intros d j Hne.
    destruct (async_add_medication_shape h d c) as (m & _ & _ & Hs).
    apply (same_at_store _ _ _ _ _ _ (same_record_refreshed h) Hs Hne).
  - intros He j. apply (same_at_fmap (update_status (now h))).
    + apply same_record_update_status.
    + rewrite (_async_update_data_nonempty h c He). reflexivity.
  - intros He j. unfold _async_update_data. rewrite He.
    apply registry_is_empty_true in He. unfold async_load_medications.
    destruct (store c) as [stored|]; cbn [medications]; rewrite He.
    + rewrite (right_id_L ∅ (∪)), !lookup_fmap.
      destruct (stored !! j); reflexivity.
    + rewrite fmap_empty. apply lookup_empty.
Qed.

Lemma keys_match_store (g : MedicationEntry -> MedicationEntry) i m2 c c' :
  (forall x, same_record x (g x)) ->
  id m2 = i ->
  medications c' = g <$> <[i := m2]> (medications c) ->
  keys_match c -> keys_match c'.
Proof.
  intros Hg Hid Hc' Hkeys j mj Hj. rewrite Hc', lookup_fmap, lookup_insert in Hj.
  destruct (decide (i = j)) as [Heq|Hne]; simpl in Hj.
  - injection Hj as <-. rewrite (proj1 (Hg m2)), Hid. exact Heq.
  - destruct (medications c !! j) as [m0|] eqn:H0; [|discriminate].
    injection Hj as <-. rewrite (proj1 (Hg m0)). apply (Hkeys j m0 H0).
Qed.

Lemma keys_match_of_registry c c' :
  medications c' = medications c -> keys_match c -> keys_match c'.
Proof. intros Hc' Hkeys j mj Hj. rewrite Hc' in Hj. apply (Hkeys j mj Hj). Qed.

Lemma store_async_update_data h c : store (_async_update_data h c) = store c.
Proof.
  unfold _async_update_data. cbn [store].
  destruct (registry_is_empty (medications c)); [|reflexivity].
  unfold async_load_medications. destruct (store c) eqn:Hs; [reflexivity|exact Hs].
Qed.

Lemma store_async_request_refresh h c : store (async_request_refresh h c) = store c.
Proof.
  unfold async_request_refresh, async_refresh.
  destruct (refresh_immediately h); [apply store_async_update_data|reflexivity].
Qed.

(* an evaluation keeps the registry keyed by id, also when it loads *)
Lemma keys_match_evaluate_stored h c :
  keys_match c -> store_keys_match c -> keys_match (_async_update_data h c).
Proof.
  intros Hkeys Hst j mj Hj. unfold _async_update_data in Hj.
  destruct (registry_is_empty (medications c)) eqn:He.
  - apply registry_is_empty_true in He. unfold async_load_medications in Hj.
    unfold store_keys_match in Hst.
    destruct (store c) as [stored|]; cbn [medications] in Hj; rewrite He in Hj.
    + rewrite (right_id_L ∅ (∪)), !lookup_fmap in Hj.
      destruct (stored !! j) as [d|] eqn:Hd; [|discriminate].
      injection Hj as <-. rewrite update_status_id. apply (Hst j d Hd).
    + rewrite fmap_empty, lookup_empty in Hj. discriminate.
  - cbn [medications] in Hj. rewrite lookup_fmap in Hj.
    destruct (medications c !! j) as [m0|] eqn:H0; [|discriminate].
    injection Hj as <-. rewrite update_status_id. apply (Hkeys j m0 H0).
Qed.

(* what a save writes is keyed as the registry is *)
Lemma store_keys_match_saved c c' :
  keys_match c -> store c' = Some (to_dict <$> medications c) ->
  store_keys_match c'.
Proof.
  intros Hkeys Hc'. unfold store_keys_match. rewrite Hc'.
  intros i d Hd. rewrite lookup_fmap in Hd.
  destruct (medications c !! i) as [m0|] eqn:H0; [|discriminate].
  injection Hd as <-. apply (Hkeys i m0 H0).
Qed.

Lemma keyed_by_id_async_request_refresh h c :
  keys_match c -> keyed_by_id (async_request_refresh h (async_save_medications c)).
Proof.
  intros Hkeys. split.
  - intros j mj Hj. rewrite lookup_async_request_refresh in Hj.
    destruct (medications c !! j) as [m0|] eqn:H0; [|discriminate].
    injection Hj as <-. rewrite refreshed_id. apply (Hkeys j m0 H0).
  - apply (store_keys_match_saved c _ Hkeys).
    rewrite store_async_request_refresh. reflexivity.
Qed.

Lemma keyed_by_id_async_refresh h c :
  keys_match c -> keyed_by_id (async_refresh h (async_save_medications c)).
Proof.
  intros Hkeys. split.
  - intros j mj Hj. rewrite lookup_async_refresh in Hj.
    destruct (medications c !! j) as [m0|] eqn:H0; [|discriminate].
    injection Hj as <-. rewrite update_status_id. apply (Hkeys j m0 H0).
  - apply (store_keys_match_saved c _ Hkeys).
    unfold async_refresh. rewrite store_async_update_data. reflexivity.
Qed.

Lemma keys_match_insert i m c b st :
  keys_match c -> id m = i ->
  keys_match (mk_MedicationCoordinator (<[i := m]> (medications c)) b st).
Proof.
  intros Hkeys Hid j mj Hj. cbn [medications] in Hj. rewrite lookup_insert in Hj.
  destruct (decide (i = j)) as [Heq|Hne]; simpl in Hj.
  - injection Hj as <-. rewrite Hid. exact Heq.
  - apply (Hkeys j mj Hj).
Qed.

Lemma keys_match_delete i c b st :
  keys_match c ->
  keys_match (mk_MedicationCoordinator (delete i (medications c)) b st).
Proof.
  intros Hkeys j mj Hj. cbn [medications] in Hj. rewrite lookup_delete in Hj.
  destruct (decide (i = j)); [discriminate|]. apply (Hkeys j mj Hj).
Qed.

(** X7: the registry and the Store stay keyed by id: if every entry is
    registered under its own id and every stored document is saved under
    the id it holds, this is so again after add, remove, update, take,
    skip, refill, update_supply and the periodic evaluation, the one that
    loads the Store into an empty registry included. *)
Theorem entries_stay_under_their_id (h : Host) (medication_id : string)
    (c : MedicationCoordinator) :
  keys_match c ->
  store_keys_match c ->
  (forall d, keyed_by_id (snd (async_add_medication h d c)))
  /\ keyed_by_id (snd (async_remove_medication h medication_id c))
  /\ (forall d, keyed_by_id (snd (async_update_medication h medication_id d c)))
  /\ (forall t, keyed_by_id (snd (async_take_medication h medication_id t c)))
  /\ (forall t, keyed_by_id (snd (async_skip_medication h medication_id t c)))
  /\ (forall n t, keyed_by_id (snd (async_refill_medication h medication_id n t c)))
  /\ (forall v, keyed_by_id (snd (async_update_supply h medication_id v c)))
  /\ keyed_by_id (_async_update_data h c).
Proof.
  intros Hkeys Hst.
  assert (Hc : keyed_by_id c) by (split; assumption).
  split; [|split; [|split; [|split; [|split; [|split; [|split]]]]]].
  - intros d. unfold async_add_medication. cbn [snd].
    apply keyed_by_id_async_request_refresh, keys_match_insert;
      [exact Hkeys|reflexivity].
  - unfold async_remove_medication.
    destruct (medications c !! medication_id); [|exact Hc]. cbn [snd].
    apply keyed_by_id_async_request_refresh, keys_match_delete, Hkeys.
  - intros d. unfold async_update_medication.
    destruct (medications c !! medication_id) as [m|] eqn:Hm; [|exact Hc]. cbn [snd].
    apply keyed_by_id_async_request_refresh, keys_match_insert; [exact Hkeys|].
    rewrite update_status_id. apply (Hkeys _ _ Hm).
  - intros t. split; [apply keys_match_take; exact Hkeys|].
    destruct (medications c !! medication_id) as [m|] eqn:Hm.
    + rewrite (async_take_medication_known h medication_id t c m Hm). cbn [snd].
      apply (store_keys_match_saved
               (mk_MedicationCoordinator
                  (<[medication_id := taken_entry h t m]> (medications c)) (bus c)
                  (store c))); [|reflexivity].
      apply keys_match_insert; [exact Hkeys|].
      rewrite taken_entry_id. apply (Hkeys _ _ Hm).
    + unfold async_take_medication. rewrite Hm. exact Hst.
  - intros t. unfold async_skip_medication.
    destruct (medications c !! medication_id) as [m|] eqn:Hm; [|exact Hc]. cbn [snd].
    apply keyed_by_id_async_refresh, keys_match_insert; [exact Hkeys|].
    apply (Hkeys _ _ Hm).
  - intros n t. unfold async_refill_medication.
    destruct (medications c !! medication_id) as [m|] eqn:Hm; [|exact Hc].
    destruct (supply_tracking_enabled (data m)); [|exact Hc]. cbn [negb snd].
    apply keyed_by_id_async_request_refresh, keys_match_insert; [exact Hkeys|].
    apply (Hkeys _ _ Hm).
  - intros v.
    destruct (medications c !! medication_id) as [m|] eqn:Hm;
      [|unfold async_update_supply; rewrite Hm; exact Hc].
    destruct (supply_tracking_enabled (data m)) eqn:Hen;
      [|unfold async_update_supply; rewrite Hm, Hen; exact Hc].
    rewrite (async_update_supply_known h medication_id v c m Hm Hen).
    apply keyed_by_id_async_request_refresh, keys_match_insert; [exact Hkeys|].
    apply (Hkeys _ _ Hm).
  - split; [apply keys_match_evaluate_stored; assumption|].
    unfold store_keys_match. rewrite store_async_update_data. exact Hst.
Qed.

(** X8: take_medication of a registered medication returns true and
    appends one taken dose to its ledger, stamped with the time given or,
    without one, with the clock reading; with supply tracking enabled and a
    supply count set the count drops by pills_per_dose but not below 0, and
    otherwise the data is left as it was. *)
Theorem take_records_a_dose (h : Host) (medication_id : string)
    (taken_at : option datetime) (c : MedicationCoordinator) (m : MedicationEntry) :
  medications c !! medication_id = Some m ->
  let r := async_take_medication h medication_id taken_at c in
  fst r = true
  /\ exists m',
       medications (snd r) !! medication_id = Some m'
       /\ dose_history m' =
            dose_history m
            ++ [mk_DoseRecord (match taken_at with Some t => t | None => now h end)
                  true None]
       /\ data m' =
            match supply_tracking_enabled (data m), current_supply (data m) with
            | true, Some s =>
                set_current_supply (Some (Z.max 0 (s - pills_per_dose (data m)))) (data m)
            | _, _ => data m
            end.
Proof.
  intros Hm r. unfold r.
  rewrite (async_take_medication_known h medication_id taken_at c m Hm).
  split; [reflexivity|]. cbn [snd medications].
  rewrite lookup_fmap, lookup_insert_eq. eexists. split; [reflexivity|].
  unfold taken_entry, decrement_supply. simpl.
  destruct (supply_tracking_enabled (data m)) eqn:Hen; simpl.
  - destruct (current_supply (data m)) eqn:Hs; simpl; split; reflexivity.
  - rewrite ?Hen. split; reflexivity.
Qed.

(** X9: skip_medication of a registered medication returns true and
    appends one skipped dose to its ledger, stamped with the time given or
    with the clock reading; the data, the supply count included, is left as
    it was and nothing is fired. *)
Theorem skip_records_a_skipped_dose (h : Host) (medication_id : string)
    (skipped_at : option datetime) (c : MedicationCoordinator) (m : MedicationEntry) :
  medications c !! medication_id = Some m ->
  let r := async_skip_medication h medication_id skipped_at c in
  fst r = true
  /\ bus (snd r) = bus c
  /\ exists m',
       medications (snd r) !! medication_id = Some m'
       /\ dose_history m' =
            dose_history m
            ++ [mk_DoseRecord (match skipped_at with Some t => t | None => now h end)
                  false None]
       /\ data m' = data m.
Proof.
  intros Hm r. unfold r, async_skip_medication. rewrite Hm.
  split; [reflexivity|]. cbn [snd].
  split; [rewrite bus_async_refresh; reflexivity|].
  rewrite lookup_async_refresh. cbn [medications]. rewrite lookup_insert_eq.
  eexists. split; [reflexivity|]. split; reflexivity.
Qed.

Lemma or_zero_value x : or_zero x = match x with Some s => s | None => 0 end.
Proof. destruct x as [s|]; [apply or_zero_Some|reflexivity]. Qed.

(** X10: refills accumulate: two refills in a row of a registered, tracked
    medication both return true and leave the old supply (0 when absent)
    plus both amounts, with the date of the second refill as
    last_refill_date. *)
Theorem refills_accumulate (h1 h2 : Host) (medication_id : string) (n1 n2 : Z)
    (t1 t2 : option datetime) (c : MedicationCoordinator) (m : MedicationEntry) :
  medications c !! medication_id = Some m ->
  supply_tracking_enabled (data m) = true ->
  let r1 := async_refill_medication h1 medication_id n1 t1 c in
  let r2 := async_refill_medication h2 medication_id n2 t2 (snd r1) in
  fst r1 = true /\ fst r2 = true
  /\ exists m',
       medications (snd r2) !! medication_id = Some m'
       /\ current_supply (data m') =
            Some (match current_supply (data m) with Some s => s | None => 0 end
                  + n1 + n2)
       /\ last_refill_date (data m') =
            Some (match t2 with Some t => t | None => now h2 end).
Proof.
  intros Hm Hen r1 r2.
  destruct (async_refill_medication_enabled h1 medication_id n1 t1 c m Hm Hen)
    as (m1 & Hr1 & Hl1 & Hd1 & _).
  fold r1 in Hr1, Hl1.
  assert (Hen1 : supply_tracking_enabled (data m1) = true) by (rewrite Hd1; exact Hen).
  destruct (async_refill_medication_enabled h2 medication_id n2 t2 (snd r1) m1 Hl1 Hen1)
    as (m2 & Hr2 & Hl2 & Hd2 & _).
  fold r2 in Hr2, Hl2.
  split; [rewrite Hr1; reflexivity|]. split; [rewrite Hr2; reflexivity|].
  exists m2. split; [exact Hl2|]. rewrite Hd2, Hd1.
  cbn [current_supply last_refill_date set_current_supply set_last_refill_date].
  rewrite or_zero_Some, or_zero_value. split; reflexivity.
Qed.

(* --------------------------------------------------------------------- *)
(* The dates the services store                                           *)
(* --------------------------------------------------------------------- *)

Lemma day_window tz ds de x :
  instant (start_of_local_day tz ds) <= x <= instant (end_of_local_day tz de)
  <-> ds <= (x + tz) / DAY <= de.
Proof.
  unfold end_of_local_day, start_of_local_day, combine, dt_add. simpl.
  pose proof DAY_positive as HD.
  pose proof (Z.mul_div_le (x + tz) DAY HD) as Hlo.
  pose proof (Z.mul_succ_div_gt (x + tz) DAY HD) as Hhi.
  remember ((x + tz) / DAY) as q eqn:Hq. clear Hq.
  unfold MICROSECOND. unfold DAY, HOUR, MINUTE in *. lia.
Qed.

Lemma date_of_end_of_local_day tz d : date_of (end_of_local_day tz d) = d.
Proof.
  pose proof (proj1 (day_window tz d d (instant (end_of_local_day tz d)))) as H.
  unfold date_of. replace (utcoffset (end_of_local_day tz d)) with tz by reflexivity.
  assert (instant (start_of_local_day tz d) <= instant (end_of_local_day tz d)).
  { unfold end_of_local_day, start_of_local_day, combine, dt_add. simpl.
    unfold MICROSECOND, DAY, HOUR, MINUTE. lia. }
  lia.
Qed.

(** X11: the add service turns the dates of a call into an active window of
    whole local days: start_date is 00:00:00 of the first day, end_date the
    last microsecond of the last day, so that an instant lies between them
    exactly when its day on the wall clock of the installation lies between
    the two dates; the coordinator stores the data built this way
    unchanged. *)
Theorem add_service_window_covers_whole_days (h : Host) (call : AddMedicationCall)
    (c : MedicationCoordinator) (first_day last_day : date) :
  add_start_date call = Some first_day ->
  add_end_date call = Some last_day ->
  exists s e,
    start_date (added_data h call) = Some s
    /\ end_date (added_data h call) = Some e
    /\ date_of s = first_day /\ date_of e = last_day
    /\ (forall t, dt_le s t /\ dt_le t e <-> first_day <= local_day h t <= last_day)
    /\ exists m,
         medications (handle_add_medication h call c) !! uuid4 h = Some m
         /\ data m = added_data h call.
Proof.
  intros Hs He.
  exists (start_of_local_day (DEFAULT_TIME_ZONE h) first_day),
         (end_of_local_day (DEFAULT_TIME_ZONE h) last_day).
  unfold added_data. rewrite Hs, He. cbn [start_date end_date].
  split; [reflexivity|]. split; [reflexivity|].
  split; [apply date_of_start_of_local_day|].
  split; [apply date_of_end_of_local_day|].
  split; [intros t; apply day_window|].
  unfold handle_add_medication, async_add_medication, added_data.
  rewrite Hs, He. cbn [snd start_date].
  rewrite lookup_async_request_refresh. cbn [medications id MedicationEntry_new].
  rewrite lookup_insert_eq. eexists. split; [reflexivity|].
  rewrite refreshed_data. reflexivity.
Qed.

Lemma updated_data_day_aligned h call current :
  day_aligned (DEFAULT_TIME_ZONE h) (updated_data h call current).
Proof.
  unfold day_aligned, updated_data, updated_start_date, updated_end_date.
  cbn [start_date end_date]. split.
  - destruct (call_start_date call); [|destruct (start_date current)];
      rewrite ?date_of_start_of_local_day; auto.
  - destruct (call_end_date call); [|destruct (end_date current)];
      rewrite ?date_of_end_of_local_day; auto.
Qed.

Lemma added_data_day_aligned h call :
  day_aligned (DEFAULT_TIME_ZONE h) (added_data h call).
Proof.
  unfold day_aligned, added_data. cbn [start_date end_date]. split.
  - destruct (add_start_date call); rewrite ?date_of_start_of_local_day; auto.
  - destruct (add_end_date call); rewrite ?date_of_end_of_local_day; auto.
Qed.

(** X12: whatever an update call carries, the dates of the data it builds
    lie on day boundaries in the zone of the installation: 00:00:00 for
    start_date and 23:59:59.999999 for end_date.  A call without a
    start_date keeps the calendar day of the stored start date, and a call
    without an end_date that of the stored end date (an absent date stays
    absent); a date that the call carries becomes the day of the stored
    one. *)
Theorem update_service_keeps_the_days (h : Host) (call : UpdateMedicationCall)
    (current : MedicationData) :
  day_aligned (DEFAULT_TIME_ZONE h) (updated_data h call current)
  /\ (call_start_date call = None ->
      date_of <$> start_date (updated_data h call current)
      = date_of <$> start_date current)
  /\ (call_end_date call = None ->
      date_of <$> end_date (updated_data h call current)
      = date_of <$> end_date current)
  /\ (forall d, call_start_date call = Some d ->
        date_of <$> start_date (updated_data h call current) = Some d)
  /\ (forall d, call_end_date call = Some d ->
        date_of <$> end_date (updated_data h call current) = Some d).
Proof.
  split; [apply updated_data_day_aligned|]. split; [|split; [|split]].
  - intros Hs. unfold updated_data, updated_start_date. cbn [start_date]. rewrite Hs.
    destruct (start_date current); simpl; [|reflexivity].
    rewrite date_of_start_of_local_day. reflexivity.
  - intros He. unfold updated_data, updated_end_date. cbn [end_date]. rewrite He.
    destruct (end_date current); simpl; [|reflexivity].
    rewrite date_of_end_of_local_day. reflexivity.
  - intros d Hs. unfold updated_data, updated_start_date. cbn [start_date]. rewrite Hs.
    simpl. rewrite date_of_start_of_local_day. reflexivity.
  - intros d He. unfold updated_data, updated_end_date. cbn [end_date]. rewrite He.
    simpl. rewrite date_of_end_of_local_day. reflexivity.
Qed.

Lemma updated_data_without_changes h i current :
  day_aligned (DEFAULT_TIME_ZONE h) current ->
  updated_data h (call_without_changes i) current = current.
Proof.
  intros [Hs He]. unfold updated_data, updated_start_date, updated_end_date.
  destruct current as [n dg f ts sd ed nt en cs ppd thr lr sh]. simpl in *.
  f_equal.
  - destruct sd; [f_equal; symmetry; exact Hs|reflexivity].
  - destruct ed; [f_equal; symmetry; exact He|reflexivity].
Qed.

(** X13: an update call without any optional field is the identity on data
    whose dates lie on the day boundaries of the installation's zone, as
    the add and update services leave them: the handler returns with the
    data of the medication exactly as it was, and its ledger too. *)
Theorem update_without_changes_keeps_the_data (h : Host) (medication_id : string)
    (c : MedicationCoordinator) (m : MedicationEntry) :
  medications c !! medication_id = Some m ->
  day_aligned (DEFAULT_TIME_ZONE h) (data m) ->
  exists m',
    medications (handle_update_medication h (call_without_changes medication_id) c)
      !! medication_id = Some m'
    /\ data m' = data m
    /\ dose_history m' = dose_history m.
Proof.
  intros Hm Hal. unfold handle_update_medication, get_medication.
  cbn [call_medication_id call_without_changes]. rewrite Hm.
  destruct (async_update_medication_known h medication_id
              (updated_data h (call_without_changes medication_id) (data m)) c m Hm)
    as [_ Hl].
  rewrite (Hl medication_id), decide_True by reflexivity. simpl.
  eexists. split; [reflexivity|].
  rewrite refreshed_data, refreshed_dose_history. simpl.
  split; [apply updated_data_without_changes; exact Hal|reflexivity].
Qed.

(* --------------------------------------------------------------------- *)
(* Which coordinator a service call reaches                               *)
(* --------------------------------------------------------------------- *)





(* --------------------------------------------------------------------- *)
(* Registering and unloading the services                                 *)
(* --------------------------------------------------------------------- *)

Lemma lookup_async_setup_services services key :
  has_service DOMAIN SERVICE_TAKE_MEDICATION services = false ->
  async_setup_services services !! key =
  if decide (key = (DOMAIN, SERVICE_UPDATE_SUPPLY)) then Some UpdateSupplyService
  else if decide (key = (DOMAIN, SERVICE_REFILL_MEDICATION)) then Some RefillMedicationService
  else if decide (key = (DOMAIN, SERVICE_UPDATE_MEDICATION)) then Some UpdateMedicationService
  else if decide (key = (DOMAIN, SERVICE_REMOVE_MEDICATION)) then Some RemoveMedicationService
  else if decide (key = (DOMAIN, SERVICE_ADD_MEDICATION)) then Some AddMedicationService
  else if decide (key = (DOMAIN, SERVICE_SKIP_MEDICATION)) then Some SkipMedicationService
  else if decide (key = (DOMAIN, SERVICE_TAKE_MEDICATION)) then Some TakeMedicationService
  else services !! key.
Proof.
  intros Hno. unfold async_setup_services, async_register. rewrite Hno.
  rewrite !lookup_insert.
  repeat (match goal with
          | |- context [decide (?a = ?b)] => destruct (decide (a = b)); subst
          end; try congruence; try reflexivity).
Qed.

Lemma lookup_async_unload_services services key :
  async_unload_services services !! key =
  if decide (In key OWN_SERVICES) then None else services !! key.
Proof.
  unfold async_unload_services. rewrite !lookup_delete.
  destruct (decide (In key OWN_SERVICES)) as [Hin|Hout].
  - simpl in Hin.
    repeat (match goal with
            | |- context [decide (?a = ?b)] => destruct (decide (a = b)); subst
            end; try reflexivity).
    intuition congruence.
  - simpl in Hout.
    repeat (match goal with
            | |- context [decide (?a = ?b)] => destruct (decide (a = b)); subst
            end; try reflexivity; try (exfalso; apply Hout; tauto)).
Qed.

(** X16: setting up the services twice is the same as setting them up
    once; when take_medication is not registered, the set-up registers the
    seven services with their handlers and touches no other service; when
    it is registered, the set-up registers nothing; unloading removes the
    seven and nothing else, so that unloading after a set-up gives back a
    registry that had none of them. *)
Theorem services_setup_and_unload (services : gmap (string * string) RegisteredService) :
  async_setup_services (async_setup_services services) = async_setup_services services
  /\ (has_service DOMAIN SERVICE_TAKE_MEDICATION services = true ->
      async_setup_services services = services)
  /\ (has_service DOMAIN SERVICE_TAKE_MEDICATION services = false ->
      (async_setup_services services !! (DOMAIN, SERVICE_TAKE_MEDICATION),
       async_setup_services services !! (DOMAIN, SERVICE_SKIP_MEDICATION),
       async_setup_services services !! (DOMAIN, SERVICE_ADD_MEDICATION),
       async_setup_services services !! (DOMAIN, SERVICE_REMOVE_MEDICATION),
       async_setup_services services !! (DOMAIN, SERVICE_UPDATE_MEDICATION),
       async_setup_services services !! (DOMAIN, SERVICE_REFILL_MEDICATION),
       async_setup_services services !! (DOMAIN, SERVICE_UPDATE_SUPPLY))
      = (Some TakeMedicationService, Some SkipMedicationService,
         Some AddMedicationService, Some RemoveMedicationService,
         Some UpdateMedicationService, Some RefillMedicationService,
         Some UpdateSupplyService)
      /\ forall key, ~ In key OWN_SERVICES ->
           async_setup_services services !! key = services !! key)
  /\ (forall key,
        async_unload_services services !! key =
        if decide (In key OWN_SERVICES) then None else services !! key)
  /\ ((forall key, In key OWN_SERVICES -> services !! key = None) ->
      async_unload_services (async_setup_services services) = services).
Proof.
  assert (Hkept : forall s, has_service DOMAIN SERVICE_TAKE_MEDICATION s = true ->
                             async_setup_services s = s).
  { intros s Hyes. unfold async_setup_services. rewrite Hyes. reflexivity. }
  assert (Hother : has_service DOMAIN SERVICE_TAKE_MEDICATION services = false ->
                   forall key, ~ In key OWN_SERVICES ->
                   async_setup_services services !! key = services !! key).
  { intros Hno key Hout. rewrite (lookup_async_setup_services services key Hno).
    simpl in Hout.
    repeat (match goal with
            | |- context [decide (?a = ?b)] => destruct (decide (a = b)); subst
            end; try reflexivity; try (exfalso; apply Hout; tauto)). }
  split; [|split; [apply Hkept|split; [|split]]].
  - destruct (has_service DOMAIN SERVICE_TAKE_MEDICATION services) eqn:Hhas.
    + rewrite !(Hkept services Hhas). reflexivity.
    + apply Hkept. unfold has_service.
      rewrite (lookup_async_setup_services services _ Hhas). reflexivity.
  - intros Hno. split; [|apply Hother; exact Hno].
    rewrite !(lookup_async_setup_services services _ Hno). reflexivity.
  - apply lookup_async_unload_services.
  - intros Hnone. apply map_eq. intros key.
    rewrite lookup_async_unload_services.
    assert (Hno : has_service DOMAIN SERVICE_TAKE_MEDICATION services = false).
    { unfold has_service. rewrite (Hnone (DOMAIN, SERVICE_TAKE_MEDICATION));
        [reflexivity|simpl; tauto]. }
    destruct (decide (In key OWN_SERVICES)) as [Hin|Hout].
    + symmetry. apply Hnone. exact Hin.
    + apply Hother; assumption.
Qed.

(* --------------------------------------------------------------------- *)
(* More on the calendar view                                              *)
(* --------------------------------------------------------------------- *)

Lemma async_get_events_perm today medications s e :
  Permutation (async_get_events today medications s e)
              (calendar_view_spec today medications s e).
Proof.
  unfold async_get_events. rewrite sort_by_start_perm, collected_events_spec.
  reflexivity.
Qed.

Lemma in_calendar_view_spec today medications s e ev :
  In ev (calendar_view_spec today medications s e) <->
  exists i m,
    In (i, m) medications
    /\ (In ev (dose_entries_spec s e i m) \/ In ev (refill_entries_spec today s e i m)).
Proof.
  unfold calendar_view_spec. rewrite in_flat_map. split.
  - intros ([i m] & Hin & Hev). apply in_app_or in Hev. eauto.
  - intros (i & m & Hin & Hev). exists (i, m). split; [exact Hin|].
    apply in_or_app. exact Hev.
Qed.

Lemma in_async_get_events today medications s e ev :
  In ev (async_get_events today medications s e) <->
  exists i m,
    In (i, m) medications
    /\ (In ev (dose_entries_spec s e i m) \/ In ev (refill_entries_spec today s e i m)).
Proof.
  rewrite <- in_calendar_view_spec. split; apply Permutation_in.
  - apply async_get_events_perm.
  - symmetry. apply async_get_events_perm.
Qed.

Lemma in_dose_entries_spec s e i m ev :
  In ev (dose_entries_spec s e i m) <->
  exists r, In r (dose_history m)
            /\ date_in_range s e (date_of (timestamp r)) = true
            /\ ev = dose_event i m r.
Proof.
  unfold dose_entries_spec. rewrite in_map_iff. split.
  - intros (r & Hev & Hin). apply filter_In in Hin as [Hin Hr]. eauto.
  - intros (r & Hin & Hr & ->). exists r. split; [reflexivity|].
    apply filter_In. split; assumption.
Qed.

Lemma in_refill_entries_spec today s e i m ev :
  In ev (refill_entries_spec today s e i m) <->
  exists d, estimated_refill_date today m = Some d
            /\ supply_tracking_enabled (data m) = true
            /\ show_refill_on_calendar (data m) = true
            /\ date_in_range s e d = true
            /\ ev = refill_event s i m d.
Proof.
  unfold refill_entries_spec.
  destruct (estimated_refill_date today m) as [d|].
  - destruct (supply_tracking_enabled (data m)), (show_refill_on_calendar (data m)),
      (date_in_range s e d) eqn:Hr; simpl; split;
      try (intros []; fail); try (intros (? & [= <-] & ? & ? & ? & ?); congruence).
    + intros [<-|[]]. exists d. repeat split; assumption.
    + intros (d' & [= <-] & _ & _ & _ & ->). left. reflexivity.
  - split; [intros []|intros (? & ? & _); discriminate].
Qed.

Lemma date_in_range_empty s e d :
  date_of e < date_of s -> date_in_range s e d = false.
Proof.
  intros H. unfold date_in_range.
  destruct (Z.leb_spec (date_of s) d), (Z.leb_spec d (date_of e)); simpl;
    try reflexivity; lia.
Qed.

(** X17: a range whose end lies on an earlier calendar day than its start
    has no events. *)
Theorem calendar_of_empty_range (today : date)
    (medications : list (string * MedicationEntry)) (start_date end_date : datetime) :
  date_of end_date < date_of start_date ->
  async_get_events today medications start_date end_date = [].
Proof.
  intros Hempty.
  destruct (async_get_events today medications start_date end_date) as [|ev l] eqn:Hev;
    [reflexivity|exfalso].
  assert (Hin : In ev (async_get_events today medications start_date end_date))
    by (rewrite Hev; left; reflexivity).
  apply in_async_get_events in Hin as (i & m & _ & [Hd|Hr]).
  - apply in_dose_entries_spec in Hd as (r & _ & Hrange & _).
    rewrite (date_in_range_empty _ _ _ Hempty) in Hrange. discriminate.
  - apply in_refill_entries_spec in Hr as (d & _ & _ & _ & Hrange & _).
    rewrite (date_in_range_empty _ _ _ Hempty) in Hrange. discriminate.
Qed.

(** X18: every event of the calendar view is either a dose event, which
    starts at the timestamp of a dose record of a listed medication and
    lasts five minutes, or a refill event, which starts at 09:00 on the
    wall clock of the zone of the range start and lasts one hour; in both
    cases the event ends after it starts. *)
Theorem calendar_events_are_well_formed (today : date)
    (medications : list (string * MedicationEntry)) (start_date end_date : datetime)
    (ev : CalendarEvent) :
  In ev (async_get_events today medications start_date end_date) ->
  instant (ev_start ev) < instant (ev_end ev)
  /\ ((exists i m r,
         In (i, m) medications /\ In r (dose_history m)
         /\ ev_uid ev = DoseUid i (timestamp r)
         /\ ev_summary ev = DoseSummary (taken r) (name (data m)) (dosage (data m))
         /\ ev_start ev = timestamp r
         /\ instant (ev_end ev) = instant (ev_start ev) + 5 * MINUTE)
      \/ (exists i m d,
            In (i, m) medications
            /\ ev_uid ev = RefillUid i d
            /\ ev_summary ev = RefillSummary (name (data m))
            /\ utcoffset (ev_start ev) = utcoffset start_date
            /\ instant (ev_start ev) + utcoffset (ev_start ev) = d * DAY + 9 * HOUR
            /\ instant (ev_end ev) = instant (ev_start ev) + HOUR)).
Proof.
  intros Hin. apply in_async_get_events in Hin as (i & m & Hm & [Hd|Hr]).
  - apply in_dose_entries_spec in Hd as (r & Hr & _ & ->). split.
    + simpl. unfold MINUTE. lia.
    + left. exists i, m, r. repeat split; assumption || reflexivity.
  - apply in_refill_entries_spec in Hr as (d & _ & _ & _ & _ & ->). split.
    + simpl. unfold HOUR, MINUTE. lia.
    + right. exists i, m, d. split; [exact Hm|].
      repeat split; try reflexivity. simpl. lia.
Qed.

Lemma starting_at_insert_by_start k e l :
  starting_at k (insert_by_start e l) = starting_at k (e :: l).
Proof.
  induction l as [|x l IH]; [reflexivity|]. simpl.
  unfold dt_leb. destruct (Z.leb_spec (instant (ev_start e)) (instant (ev_start x))) as [Hle|Hgt].
  - reflexivity.
  - unfold starting_at in *. simpl in *. rewrite IH.
    destruct (Z.eqb_spec (instant (ev_start x)) k), (Z.eqb_spec (instant (ev_start e)) k);
      try reflexivity; lia.
Qed.

Lemma starting_at_sort_by_start k l :
  starting_at k (sort_by_start l) = starting_at k l.
Proof.
  induction l as [|e l IH]; [reflexivity|]. simpl.
  rewrite starting_at_insert_by_start. unfold starting_at in *. simpl.
  rewrite IH. reflexivity.
Qed.

(** X19: the sort of the calendar view is stable: events that start at the
    same instant come in the order in which they were collected, that is
    medication after medication as listed, the doses of a medication in
    ledger order and its refill event after them. *)
Theorem calendar_sort_is_stable (today : date)
    (medications : list (string * MedicationEntry)) (start_date end_date : datetime)
    (k : Z) :
  starting_at k (async_get_events today medications start_date end_date)
  = starting_at k (calendar_view_spec today medications start_date end_date).
Proof.
  unfold async_get_events. rewrite starting_at_sort_by_start, collected_events_spec.
  reflexivity.
Qed.

Lemma refill_event_zone s s' i m d :
  utcoffset s' = utcoffset s -> refill_event s' i m d = refill_event s i m d.
Proof. intros Hz. unfold refill_event. rewrite Hz. reflexivity. Qed.

Lemma date_in_range_wider s e s' e' d :
  date_of s' <= date_of s -> date_of e <= date_of e' ->
  date_in_range s e d = true -> date_in_range s' e' d = true.
Proof.
  unfold date_in_range. intros Hs He H.
  apply andb_true_iff in H as [H1 H2]. apply Z.leb_le in H1, H2.
  apply andb_true_iff. split; apply Z.leb_le; lia.
Qed.

(** X20: widening the range never loses an event: every event returned for
    a range is returned for any range that starts on the same or an earlier
    day and ends on the same or a later day, when both range starts are in
    the same zone. *)
Theorem calendar_is_monotone_in_the_range (today : date)
    (medications : list (string * MedicationEntry))
    (start_date end_date wider_start wider_end : datetime) (ev : CalendarEvent) :
  date_of wider_start <= date_of start_date ->
  date_of end_date <= date_of wider_end ->
  utcoffset wider_start = utcoffset start_date ->
  In ev (async_get_events today medications start_date end_date) ->
  In ev (async_get_events today medications wider_start wider_end).
Proof.
  intros Hs He Hz Hin.
  apply in_async_get_events in Hin as (i & m & Hm & [Hd|Hr]);
    apply in_async_get_events; exists i, m; (split; [exact Hm|]).
  - left. apply in_dose_entries_spec in Hd as (r & Hr & Hrange & ->).
    apply in_dose_entries_spec. exists r. split; [exact Hr|].
    split; [|reflexivity]. apply (date_in_range_wider _ _ _ _ _ Hs He Hrange).
  - right. apply in_refill_entries_spec in Hr as (d & Hest & Hen & Hshow & Hrange & ->).
    apply in_refill_entries_spec. exists d.
    repeat split; try assumption.
    + apply (date_in_range_wider _ _ _ _ _ Hs He Hrange).
    + symmetry. apply refill_event_zone. exact Hz.
Qed.

Lemma dose_shows_on_calendar today (reg : gmap string MedicationEntry) s e i m' r :
  reg !! i = Some m' ->
  In r (dose_history m') ->
  date_of s <= date_of (timestamp r) <= date_of e ->
  In (dose_event i m' r) (async_get_events today (map_to_list reg) s e).
Proof.
  intros Hm Hr Hrange. apply in_async_get_events. exists i, m'. split.
  - apply list_elem_of_In, elem_of_map_to_list. exact Hm.
  - left. apply in_dose_entries_spec. exists r. split; [exact Hr|].
    split; [|reflexivity].
    unfold date_in_range. apply andb_true_iff. split; apply Z.leb_le; lia.
Qed.

Lemma take_records_a_dose_aux h i t c m :
  medications c !! i = Some m ->
  exists m',
    medications (snd (async_take_medication h i t c)) !! i = Some m'
    /\ dose_history m' =
         dose_history m
         ++ [mk_DoseRecord (match t with Some t0 => t0 | None => now h end) true None]
    /\ name (data m') = name (data m)
    /\ dosage (data m') = dosage (data m).
Proof.
  intros Hm. rewrite (async_take_medication_known h i t c m Hm).
  cbn [snd medications]. rewrite lookup_fmap, lookup_insert_eq.
  eexists. split; [reflexivity|].
  unfold taken_entry, decrement_supply. simpl.
  destruct (supply_tracking_enabled (data m)); simpl;
    [destruct (current_supply (data m)); simpl|]; repeat split; reflexivity.
Qed.

Lemma skip_records_a_dose_aux h i t c m :
  medications c !! i = Some m ->
  exists m',
    medications (snd (async_skip_medication h i t c)) !! i = Some m'
    /\ dose_history m' =
         dose_history m
         ++ [mk_DoseRecord (match t with Some t0 => t0 | None => now h end) false None]
    /\ data m' = data m.
Proof.
  intros Hm. unfold async_skip_medication. rewrite Hm. cbn [snd].
  rewrite lookup_async_refresh. cbn [medications]. rewrite lookup_insert_eq.
  eexists. split; [reflexivity|]. split; reflexivity.
Qed.

(** X21: a dose that is taken or skipped shows on the calendar: after
    take_medication (skip_medication) of a registered medication, the
    calendar view of the registry for any range whose days include the day
    of the dose contains an event that starts at the time of the dose, is a
    dose event of that medication, and is marked taken (skipped). *)
Theorem recorded_dose_shows_on_calendar (h : Host) (medication_id : string)
    (at_ : option datetime) (c : MedicationCoordinator) (m : MedicationEntry)
    (today : date) (start_date end_date : datetime) :
  medications c !! medication_id = Some m ->
  let dose_time := match at_ with Some t => t | None => now h end in
  date_of start_date <= date_of dose_time <= date_of end_date ->
  (exists ev,
     In ev (async_get_events today
              (map_to_list (medications (snd (async_take_medication h medication_id at_ c))))
              start_date end_date)
     /\ ev_start ev = dose_time
     /\ ev_uid ev = DoseUid medication_id dose_time
     /\ ev_summary ev = DoseSummary true (name (data m)) (dosage (data m)))
  /\ (exists ev,
        In ev (async_get_events today
                 (map_to_list (medications (snd (async_skip_medication h medication_id at_ c))))
                 start_date end_date)
        /\ ev_start ev = dose_time
        /\ ev_uid ev = DoseUid medication_id dose_time
        /\ ev_summary ev = DoseSummary false (name (data m)) (dosage (data m))).
Proof.
  intros Hm dose_time Hrange. split.
  - destruct (take_records_a_dose_aux h medication_id at_ c m Hm)
      as (m' & Hm' & Hh & Hn & Hd).
    exists (dose_event medication_id m' (mk_DoseRecord dose_time true None)).
    split; [|split; [reflexivity|split; [reflexivity|]]].
    + apply dose_shows_on_calendar; [exact Hm'| |exact Hrange].
      rewrite Hh. apply in_or_app. right. left. reflexivity.
    + unfold dose_event, _create_event_summary. simpl. rewrite Hn, Hd. reflexivity.
  - destruct (skip_records_a_dose_aux h medication_id at_ c m Hm)
      as (m' & Hm' & Hh & Hd).
    exists (dose_event medication_id m' (mk_DoseRecord dose_time false None)).
    split; [|split; [reflexivity|split; [reflexivity|]]].
    + apply dose_shows_on_calendar; [exact Hm'| |exact Hrange].
      rewrite Hh. apply in_or_app. right. left. reflexivity.
    + unfold dose_event, _create_event_summary. simpl. rewrite Hd. reflexivity.
Qed.

(* --------------------------------------------------------------------- *)
(* Removing the entities of a medication                                  *)
(* --------------------------------------------------------------------- *)

Lemma append_cons a s t : String.append (String a s) t = String a (String.append s t).
Proof. reflexivity. Qed.

Lemma append_empty t : String.append EmptyString t = t.
Proof. reflexivity. Qed.

Lemma prefix_spec needle : forall hay,
  String.prefix needle hay = true <-> exists post, hay = String.append needle post.
Proof.
  induction needle as [|a needle IH]; intros hay.
  - split; [intros _; exists hay; reflexivity|].
    intros _. destruct hay; reflexivity.
  - destruct hay as [|b hay]; simpl.
    + split; [discriminate|]. intros [post Hp]. rewrite append_cons in Hp. discriminate.
    + destruct (Ascii.ascii_dec a b) as [->|Hne].
      * rewrite IH. split; intros [post Hp]; exists post.
        -- rewrite append_cons. congruence.
        -- rewrite append_cons in Hp. congruence.
      * split; [discriminate|]. intros [post Hp]. rewrite append_cons in Hp. congruence.
Qed.

Lemma contains_spec needle : forall hay,
  contains needle hay = true <->
  exists pre post, hay = String.append pre (String.append needle post).
Proof.
  induction hay as [|b hay IH].
  - cbn [contains]. rewrite orb_false_r, prefix_spec. split.
    + intros [post Hp]. exists EmptyString, post. exact Hp.
    + intros (pre & post & Hp). destruct pre as [|a pre].
      * exists post. exact Hp.
      * rewrite append_cons in Hp. discriminate.
  - cbn [contains]. rewrite orb_true_iff, prefix_spec, IH. split.
    + intros [[post Hp]|(pre & post & Hp)].
      * exists EmptyString, post. exact Hp.
      * exists (String b pre), post. rewrite append_cons. congruence.
    + intros (pre & post & Hp). destruct pre as [|a pre].
      * left. exists post. exact Hp.
      * right. exists pre, post. rewrite append_cons in Hp. congruence.
Qed.

Lemma lookup_fold_delete (ks : list string) : forall (reg : gmap string RegistryEntry) k,
  fold_left (fun registry id_to_remove => delete id_to_remove registry) ks reg !! k
  = if decide (k ∈ ks) then None else reg !! k.
Proof.
  induction ks as [|x ks IH]; intros reg k; simpl.
  - destruct (decide (k ∈ [])) as [Hin|]; [|reflexivity].
    apply elem_of_nil in Hin. contradiction.
  - rewrite IH, lookup_delete.
    destruct (decide (k ∈ ks)) as [Hin|Hout].
    + rewrite decide_True by (apply elem_of_cons; tauto). reflexivity.
    + destruct (decide (x = k)) as [->|Hne].
      * rewrite decide_True by (apply elem_of_cons; tauto). reflexivity.
      * rewrite decide_False; [reflexivity|].
        intros Hin. apply elem_of_cons in Hin as [->|Hin]; tauto.
Qed.

Lemma in_entries_to_remove i (entities : gmap string RegistryEntry) k :
  (forall k' e, entities !! k' = Some e -> entity_id e = k') ->
  In k (entries_to_remove i entities) <->
  exists e, entities !! k = Some e /\ is_entity_of i e = true.
Proof.
  intros Hkeyed. unfold entries_to_remove. rewrite in_map_iff. split.
  - intros (e & <- & Hin). apply filter_In in Hin as [Hin He].
    apply in_map_iff in Hin as ([k' e'] & <- & Hin). simpl in *.
    apply list_elem_of_In, elem_of_map_to_list in Hin.
    rewrite (Hkeyed k' e' Hin). eauto.
  - intros (e & Hk & He). exists e. split; [apply (Hkeyed k e Hk)|].
    apply filter_In. split; [|exact He].
    apply in_map_iff. exists (k, e). split; [reflexivity|].
    apply list_elem_of_In, elem_of_map_to_list. exact Hk.
Qed.

(** X22: removing the entities of a medication from an entity registry
    keyed by entity id removes exactly the entries of domain sensor,
    binary_sensor or button and of platform medication_tracker whose
    unique_id contains the medication id as a substring; every other entry
    (another platform, another domain such as the calendar, a unique_id
    without the id) stays as it is, and nothing is added. *)
Theorem entities_of_the_medication_are_removed (medication_id : string)
    (entities : gmap string RegistryEntry) :
  (forall k e, entities !! k = Some e -> entity_id e = k) ->
  (forall k,
     _async_remove_entities_for_medication medication_id entities !! k =
     match entities !! k with
     | Some e => if is_entity_of medication_id e then None else Some e
     | None => None
     end)
  /\ (forall e,
        is_entity_of medication_id e = true <->
        (domain e = "sensor"%string \/ domain e = "binary_sensor"%string
         \/ domain e = "button"%string)
        /\ platform e = DOMAIN
        /\ exists pre post,
             unique_id e = String.append pre (String.append medication_id post)).
Proof.
  intros Hkeyed. split.
  - intros k. unfold _async_remove_entities_for_medication.
    rewrite lookup_fold_delete.
    destruct (decide (k ∈ entries_to_remove medication_id entities)) as [Hin|Hout].
    + apply list_elem_of_In, (in_entries_to_remove _ _ _ Hkeyed) in Hin as (e & -> & ->).
      reflexivity.
    + destruct (entities !! k) as [e|] eqn:Hk; [|reflexivity].
      destruct (is_entity_of medication_id e) eqn:He; [|reflexivity].
      exfalso. apply Hout. apply list_elem_of_In, (in_entries_to_remove _ _ _ Hkeyed).
      eauto.
  - intros e. unfold is_entity_of.
    rewrite !andb_true_iff, !orb_true_iff, !String.eqb_eq, contains_spec. tauto.
Qed.

End Engine.

(* ===================================================================== *)
(* Worked examples on the sample data                                     *)
(* ===================================================================== *)

Lemma aspirin_registry_keys_match : keys_match aspirin_registry.
Proof.
  intros i m Hm. unfold aspirin_registry in Hm. cbn [medications] in Hm.
  apply lookup_singleton_Some in Hm as [<- <-]. reflexivity.
Qed.

Lemma aspirin_registry_supply_invariant : supply_invariant aspirin_registry.
Proof.
  intros i m s Hm _. unfold aspirin_registry in Hm. cbn [medications] in Hm.
  apply lookup_singleton_Some in Hm as [_ <-]. intros [= <-]. lia.
Qed.

Lemma aspirin_5_registry_supply_invariant : supply_invariant aspirin_5_registry.
Proof.
  intros i m s Hm _. unfold aspirin_5_registry in Hm. cbn [medications] in Hm.
  apply lookup_singleton_Some in Hm as [_ <-]. intros [= <-]. lia.
Qed.

(* two doses and an evaluation in between: the supply goes 30, 28, 26, the
   days of supply 7.5, 7, 6.5 against a threshold of 7 *)
Definition two_doses : list (Host * Operation) :=
  [(sample_host, TakeMedication "aspirin" None);
   (sample_host, Evaluate);
   (sample_host, TakeMedication "aspirin" None)].

Example two_doses_fire_once :
  bus (run no_schedule never_due keep_cached no_history_rate two_doses aspirin_registry)
  = [mk_LowSupplyEvent "aspirin" "aspirin" (Some 28) 2 7 (Some 8)]
  /\ crossings no_schedule never_due keep_cached no_history_rate "aspirin" two_doses aspirin_registry
     = 1%nat.
Proof. split; vm_compute; reflexivity. Qed.

(** C1, on the sample: the events about aspirin fired over two doses with an
    evaluation in between are as many as the crossings of its
    is_low_supply. *)
Lemma low_supply_event_is_edge_triggered_witness :
  keys_match aspirin_registry
  /\ loads_nothing aspirin_registry
  /\ count_fired "aspirin"
       (bus (run no_schedule never_due keep_cached no_history_rate two_doses aspirin_registry))
     = (count_fired "aspirin" (bus aspirin_registry)
        + crossings no_schedule never_due keep_cached no_history_rate "aspirin" two_doses
            aspirin_registry)%nat.
Proof.
  assert (Hload : loads_nothing aspirin_registry)
    by (apply (loads_nothing_of_lookup _ "aspirin"%string aspirin); reflexivity).
  split; [exact aspirin_registry_keys_match|]. split; [exact Hload|].
  apply (low_supply_event_is_edge_triggered no_schedule never_due keep_cached no_history_rate
           "aspirin" aspirin_registry aspirin_registry_keys_match).
  exact Hload.
Defined.

(** C2, on the sample: 5 pills refilled with 30 are 35, dated as given. *)
Lemma refill_adds_amount_witness :
  fst (async_refill_medication no_schedule never_due keep_cached sample_host "aspirin" 30
         (Some refill_day) aspirin_5_registry) = true
  /\ exists m',
       medications
         (snd (async_refill_medication no_schedule never_due keep_cached sample_host "aspirin" 30
                 (Some refill_day) aspirin_5_registry)) !! "aspirin"%string = Some m'
       /\ current_supply (data m') = Some 35
       /\ last_refill_date (data m') = Some refill_day.
Proof.
  exact (refill_adds_amount no_schedule never_due keep_cached sample_host "aspirin" 30 refill_day
           aspirin_5_registry).
Defined.

(** C3, on the sample: taking a dose, refilling 30 and setting the supply
    to 0 all keep the supply of the sample registry non-negative. *)
Lemma supply_stays_non_negative_witness :
  supply_invariant aspirin_5_registry
  /\ supply_invariant
       (snd (async_take_medication no_schedule never_due keep_cached no_history_rate sample_host
               "aspirin" None aspirin_5_registry))
  /\ supply_invariant
       (snd (async_refill_medication no_schedule never_due keep_cached sample_host "aspirin" 30 None
               aspirin_5_registry))
  /\ supply_invariant
       (snd (async_update_supply no_schedule never_due keep_cached no_history_rate sample_host
               "aspirin" 0 aspirin_5_registry)).
Proof.
  pose proof (supply_stays_non_negative no_schedule never_due keep_cached no_history_rate
                sample_host "aspirin" aspirin_5_registry
                aspirin_5_registry_supply_invariant) as (Htake & Hrefill & Hset & _).
  split; [exact aspirin_5_registry_supply_invariant|].
  split; [apply Htake|].
  split; [apply Hrefill; lia|apply Hset; lia].
Defined.

(** C3 as stated fails: a refill by -10 of a tracked medication with 5 pills
    is accepted by the coordinator and leaves a supply of -5. *)
Lemma refill_by_negative_amount_counterexample :
  supply_invariant aspirin_5_registry
  /\ current_supply (data aspirin_5) = Some 5
  /\ (current_supply ∘ data) <$>
       (medications
          (snd (async_refill_medication no_schedule never_due keep_cached sample_host "aspirin" (-10)
                  None aspirin_5_registry)) !! "aspirin"%string) = Some (Some (-5))
  /\ ~ supply_invariant
        (snd (async_refill_medication no_schedule never_due keep_cached sample_host "aspirin" (-10)
                None aspirin_5_registry)).
Proof.
  split; [exact aspirin_5_registry_supply_invariant|].
  split; [reflexivity|].
  split; [vm_compute; reflexivity|].
  intros Hinv.
  destruct (medications
              (snd (async_refill_medication no_schedule never_due keep_cached sample_host "aspirin"
                      (-10) None aspirin_5_registry)) !! "aspirin"%string)
    as [m'|] eqn:Hm'; [|vm_compute in Hm'; discriminate].
  pose proof (Hinv "aspirin"%string m' (-5) Hm') as Hneg.
  vm_compute in Hm'. injection Hm' as <-.
  specialize (Hneg eq_refl eq_refl). lia.
Qed.

(** C4, on the sample: with tracking enabled the supply becomes the value
    given. *)
Lemma update_supply_overrides_witness :
  medications aspirin_registry !! "aspirin"%string = Some aspirin
  /\ fst (async_update_supply no_schedule never_due keep_cached no_history_rate sample_host
            "aspirin" 12 aspirin_registry) = true
  /\ exists m',
       medications
         (snd (async_update_supply no_schedule never_due keep_cached no_history_rate sample_host
                 "aspirin" 12 aspirin_registry)) !! "aspirin"%string = Some m'
       /\ current_supply (data m') = Some 12.
Proof.
  split; [reflexivity|].
  exact (update_supply_overrides no_schedule never_due keep_cached no_history_rate sample_host
           "aspirin" 12 aspirin_registry aspirin eq_refl).
Defined.

Example update_supply_rejected_when_untracked :
  async_update_supply no_schedule never_due keep_cached no_history_rate sample_host "aspirin" 12
    (mk_MedicationCoordinator {[ "aspirin"%string := aspirin_untracked ]} [] None)
  = (false, mk_MedicationCoordinator {[ "aspirin"%string := aspirin_untracked ]} [] None).
Proof. reflexivity. Qed.

(** C5, on the sample: "ibuprofen" is not registered; removing it fails
    and the registry is as before. *)
Lemma unknown_id_is_rejected_witness :
  medications aspirin_registry !! "ibuprofen"%string = None
  /\ async_remove_medication no_schedule never_due keep_cached sample_host "ibuprofen" aspirin_registry
     = (false, aspirin_registry)
  /\ async_take_medication no_schedule never_due keep_cached no_history_rate sample_host "ibuprofen"
       None aspirin_registry = (false, aspirin_registry).
Proof.
  assert (Hnone : medications aspirin_registry !! "ibuprofen"%string = None)
    by reflexivity.
  pose proof (unknown_id_is_rejected no_schedule never_due keep_cached no_history_rate sample_host
                "ibuprofen" aspirin_registry Hnone) as (Hrm & _ & Htake & _).
  split; [exact Hnone|]. split; [exact Hrm|apply Htake].
Defined.



(** C7, on the sample: aspirin has a next dose cached for refill_day and
    the sample engine keeps a cached value as it is; updating aspirin with
    other data succeeds, the entry then carries exactly that data, and the
    cached value is gone. *)
Lemma update_replaces_data_and_resets_schedule_witness :
  medications scheduled_registry !! "aspirin"%string = Some aspirin_scheduled
  /\ next_due aspirin_scheduled = Some refill_day
  /\ fst (async_update_medication no_schedule never_due keep_cached sample_host "aspirin"
            (data aspirin_5) scheduled_registry) = true
  /\ exists m',
       medications
         (snd (async_update_medication no_schedule never_due keep_cached sample_host "aspirin"
                 (data aspirin_5) scheduled_registry)) !! "aspirin"%string = Some m'
       /\ data m' = data aspirin_5
       /\ next_due m' = None.
Proof.
  assert (Hm : medications scheduled_registry !! "aspirin"%string = Some aspirin_scheduled)
    by reflexivity.
  destruct (update_replaces_data_and_resets_schedule no_schedule never_due keep_cached
              sample_host "aspirin" (data aspirin_5) scheduled_registry aspirin_scheduled Hm)
    as (Hr & Hstored & _ & _ & _ & m' & Hm' & Hdata & _).
  split; [exact Hm|]. split; [reflexivity|]. split; [exact Hr|].
  exists m'. split; [exact Hm'|]. split; [exact Hdata|].
  rewrite Hstored in Hm'. injection Hm' as <-. reflexivity.
Defined.

(** C9, on the sample: a service call that changes dosage and supply leaves
    the refill date of the entry where it was. *)
Lemma update_service_keeps_last_refill_date_witness :
  medications (mk_MedicationCoordinator {[ "aspirin"%string := aspirin_refilled ]} [] None)
    !! "aspirin"%string = Some aspirin_refilled
  /\ exists m',
       medications
         (handle_update_medication no_schedule never_due keep_cached sample_host sample_call
            (mk_MedicationCoordinator {[ "aspirin"%string := aspirin_refilled ]} [] None))
         !! "aspirin"%string = Some m'
       /\ last_refill_date (data m') = Some refill_day.
Proof.
  assert (Hm : medications
                 (mk_MedicationCoordinator {[ "aspirin"%string := aspirin_refilled ]} [] None)
                 !! "aspirin"%string = Some aspirin_refilled) by reflexivity.
  split; [exact Hm|].
  exact (proj1 (proj2 (update_service_keeps_last_refill_date no_schedule never_due keep_cached
                         no_history_rate sample_host sample_call _ "aspirin"
                         aspirin_refilled Hm))).
Defined.

Example update_service_changes_the_rest :
  data <$>
    (medications
       (handle_update_medication no_schedule never_due keep_cached sample_host sample_call
          (mk_MedicationCoordinator {[ "aspirin"%string := aspirin_refilled ]} [] None))
     !! "aspirin"%string)
  = Some (mk_MedicationData "aspirin" "200mg" FREQUENCY_DAILY ["08:00"; "20:00"]%string
            None None "" true (Some 12) 2 7 (Some refill_day) true).
Proof. vm_compute. reflexivity. Qed.

(** C10, on the sample: aspirin without a supply count, refilled with 30 and
    no date at noon, has 30 pills and noon as its refill date. *)
Lemma refill_of_missing_supply_witness :
  medications (mk_MedicationCoordinator {[ "aspirin"%string := aspirin_uncounted ]} [] None)
    !! "aspirin"%string = Some aspirin_uncounted
  /\ supply_tracking_enabled (data aspirin_uncounted) = true
  /\ exists m',
       medications
         (snd (async_refill_medication no_schedule never_due keep_cached sample_host "aspirin" 30 None
                 (mk_MedicationCoordinator {[ "aspirin"%string := aspirin_uncounted ]} [] None)))
         !! "aspirin"%string = Some m'
       /\ current_supply (data m') = Some 30
       /\ last_refill_date (data m') = Some noon.
Proof.
  assert (Hm : medications
                 (mk_MedicationCoordinator {[ "aspirin"%string := aspirin_uncounted ]} [] None)
                 !! "aspirin"%string = Some aspirin_uncounted) by reflexivity.
  destruct (refill_of_missing_supply no_schedule never_due keep_cached sample_host "aspirin" 30 None
              _ aspirin_uncounted Hm eq_refl) as (m' & Hm' & Hsupply & Hdate).
  split; [exact Hm|]. split; [reflexivity|].
  exists m'. split; [exact Hm'|].
  split; [apply Hsupply; left; reflexivity|apply Hdate; reflexivity].
Defined.


Example calendar_shows_refill_entry :
  async_get_events no_history_rate 0 [("aspirin"%string, aspirin_with_dose)]
    (mk_datetime 0 0) (mk_datetime (10 * DAY) 0)
  = [dose_event "aspirin" aspirin_with_dose morning_dose;
     refill_event (mk_datetime 0 0) "aspirin" aspirin_with_dose 7].
Proof. vm_compute. reflexivity. Qed.

(* ===================================================================== *)
(* Further worked examples                                                *)
(* ===================================================================== *)

Lemma aspirin_is_registered :
  medications aspirin_registry !! "aspirin"%string = Some aspirin.
Proof. reflexivity. Qed.



(** X5, on the sample: the event fired by the first dose of aspirin carries
    the supply of 28 that the dose leaves. *)
Lemma low_supply_event_describes_the_result_witness :
  bus (snd (async_take_medication no_schedule never_due keep_cached no_history_rate sample_host
              "aspirin" None aspirin_registry))
  = bus aspirin_registry ++ [aspirin_low_event]
  /\ exists m',
       medications
         (snd (async_take_medication no_schedule never_due keep_cached no_history_rate sample_host
                 "aspirin" None aspirin_registry)) !! "aspirin"%string = Some m'
       /\ ev_current_supply aspirin_low_event = current_supply (data m').
Proof.
  assert (Hbus : bus (snd (async_take_medication no_schedule never_due keep_cached no_history_rate
                             sample_host "aspirin" None aspirin_registry))
                 = bus aspirin_registry ++ [aspirin_low_event])
    by (vm_compute; reflexivity).
  destruct (low_supply_event_describes_the_result no_schedule never_due keep_cached no_history_rate
              sample_host "aspirin" aspirin_registry _ aspirin_low_event
              (or_introl (ex_intro _ None eq_refl)) Hbus)
    as (m' & Hm' & _ & _ & _ & Hsupply & _).
  split; [exact Hbus|]. exists m'. split; [exact Hm'|exact Hsupply].
Defined.

(** X3, on the sample: after a restart the registry is empty and the
    Store holds aspirin; the first evaluation registers exactly that id. *)
Lemma ids_change_by_add_remove_and_load_witness :
  registry_is_empty (medications restarted) = true
  /\ dom (medications
            (_async_update_data no_schedule never_due keep_cached sample_host restarted))
     = {[ "aspirin"%string ]}.
Proof.
  assert (He : registry_is_empty (medications restarted) = true)
    by (vm_compute; reflexivity).
  destruct (ids_change_by_add_remove_and_load no_schedule never_due keep_cached
              no_history_rate sample_host "aspirin" restarted)
    as (_ & _ & _ & _ & _ & Hdom).
  split; [exact He|]. rewrite Hdom, He. unfold restarted. cbn [store].
  apply dom_singleton_L.
Defined.

(** X6, on the sample: the first evaluation after a restart registers
    aspirin as it was stored. *)
Lemma other_medications_are_untouched_witness :
  registry_is_empty (medications restarted) = true
  /\ medications
       (_async_update_data no_schedule never_due keep_cached sample_host restarted)
       !! "aspirin"%string = Some aspirin.
Proof.
  assert (He : registry_is_empty (medications restarted) = true)
    by (vm_compute; reflexivity).
  destruct (other_medications_are_untouched no_schedule never_due keep_cached
              no_history_rate sample_host "aspirin" restarted)
    as (_ & _ & _ & _ & _ & _ & _ & Hload).
  split; [exact He|]. rewrite (Hload He "aspirin"%string).
  vm_compute. reflexivity.
Defined.

(** X7, on the sample: after a restart the registry is empty and the
    Store holds aspirin under its id; the first evaluation loads it and
    leaves registry and Store keyed by id. *)
Lemma entries_stay_under_their_id_witness :
  keys_match restarted
  /\ store_keys_match restarted
  /\ keyed_by_id (_async_update_data no_schedule never_due keep_cached sample_host restarted)
  /\ id <$> (medications
               (_async_update_data no_schedule never_due keep_cached sample_host restarted)
               !! "aspirin"%string) = Some "aspirin"%string.
Proof.
  assert (Hkeys : keys_match restarted).
  { intros i m Hm. unfold restarted in Hm. cbn [medications] in Hm.
    rewrite lookup_empty in Hm. discriminate. }
  assert (Hst : store_keys_match restarted).
  { unfold store_keys_match, restarted. cbn [store]. intros i d Hd.
    apply lookup_singleton_Some in Hd as [<- <-]. reflexivity. }
  destruct (entries_stay_under_their_id no_schedule never_due keep_cached no_history_rate
              sample_host "aspirin" restarted Hkeys Hst)
    as (_ & _ & _ & _ & _ & _ & _ & Hev).
  split; [exact Hkeys|]. split; [exact Hst|]. split; [exact Hev|].
  vm_compute. reflexivity.
Defined.

(** X8, on the sample: a dose of aspirin at noon is in the ledger and the
    supply of 30 is 28. *)
Lemma take_records_a_dose_witness :
  medications aspirin_registry !! "aspirin"%string = Some aspirin
  /\ exists m',
       medications
         (snd (async_take_medication no_schedule never_due keep_cached no_history_rate sample_host
                 "aspirin" None aspirin_registry)) !! "aspirin"%string = Some m'
       /\ dose_history m' = [mk_DoseRecord noon true None]
       /\ current_supply (data m') = Some 28.
Proof.
  destruct (take_records_a_dose no_schedule never_due keep_cached no_history_rate sample_host
              "aspirin" None aspirin_registry aspirin aspirin_is_registered)
    as (_ & m' & Hm' & Hh & Hd).
  split; [exact aspirin_is_registered|].
  exists m'. split; [exact Hm'|]. split; [exact Hh|]. rewrite Hd. reflexivity.
Defined.

(** X9, on the sample: a skipped dose of aspirin is in the ledger and the
    supply is still 30. *)
Lemma skip_records_a_skipped_dose_witness :
  medications aspirin_registry !! "aspirin"%string = Some aspirin
  /\ exists m',
       medications
         (snd (async_skip_medication no_schedule never_due keep_cached sample_host "aspirin"
                 (Some refill_day) aspirin_registry)) !! "aspirin"%string = Some m'
       /\ dose_history m' = [mk_DoseRecord refill_day false None]
       /\ current_supply (data m') = Some 30.
Proof.
  destruct (skip_records_a_skipped_dose no_schedule never_due keep_cached sample_host "aspirin"
              (Some refill_day) aspirin_registry aspirin aspirin_is_registered)
    as (_ & _ & m' & Hm' & Hh & Hd).
  split; [exact aspirin_is_registered|].
  exists m'. split; [exact Hm'|]. split; [exact Hh|]. rewrite Hd. reflexivity.
Defined.

(** X10, on the sample: 30 pills refilled with 10 and then with 20 are 60. *)
Lemma refills_accumulate_witness :
  medications aspirin_registry !! "aspirin"%string = Some aspirin
  /\ supply_tracking_enabled (data aspirin) = true
  /\ exists m',
       medications
         (snd (async_refill_medication no_schedule never_due keep_cached sample_host "aspirin" 20 None
                 (snd (async_refill_medication no_schedule never_due keep_cached sample_host "aspirin"
                         10 (Some refill_day) aspirin_registry))))
         !! "aspirin"%string = Some m'
       /\ current_supply (data m') = Some 60
       /\ last_refill_date (data m') = Some noon.
Proof.
  destruct (refills_accumulate no_schedule never_due keep_cached sample_host sample_host "aspirin"
              10 20 (Some refill_day) None aspirin_registry aspirin
              aspirin_is_registered eq_refl)
    as (_ & _ & m' & Hm' & Hs & Hd).
  split; [exact aspirin_is_registered|]. split; [reflexivity|].
  exists m'. split; [exact Hm'|]. split; [exact Hs|exact Hd].
Defined.

(** X11, on the sample: ibuprofen from day 3 to day 5 starts at 00:00 of
    day 3 and ends with the last microsecond of day 5. *)
Lemma add_service_window_covers_whole_days_witness :
  add_start_date ibuprofen_call = Some 3
  /\ add_end_date ibuprofen_call = Some 5
  /\ exists s e,
       start_date (added_data sample_host ibuprofen_call) = Some s
       /\ end_date (added_data sample_host ibuprofen_call) = Some e
       /\ date_of s = 3 /\ date_of e = 5.
Proof.
  destruct (add_service_window_covers_whole_days no_schedule never_due keep_cached sample_host
              ibuprofen_call aspirin_registry 3 5 eq_refl eq_refl)
    as (s & e & Hs & He & Hds & Hde & _).
  split; [reflexivity|]. split; [reflexivity|].
  exists s, e. repeat split; assumption.
Defined.

(** X12, on the sample: the sample call carries no dates, so the days of
    the dates of ibuprofen are kept. *)
Lemma update_service_keeps_the_days_witness :
  call_start_date sample_call = None
  /\ call_end_date sample_call = None
  /\ date_of <$> start_date (updated_data sample_host sample_call (data ibuprofen_added))
     = Some 3
  /\ date_of <$> end_date (updated_data sample_host sample_call (data ibuprofen_added))
     = Some 5.
Proof.
  destruct (update_service_keeps_the_days sample_host sample_call (data ibuprofen_added))
    as (_ & Hs & He & _).
  split; [reflexivity|]. split; [reflexivity|].
  split; [rewrite (Hs eq_refl)|rewrite (He eq_refl)]; vm_compute; reflexivity.
Defined.

(** X13, on the sample: an update of ibuprofen without changes keeps its
    data. *)
Lemma update_without_changes_keeps_the_data_witness :
  medications ibuprofen_registry !! "ibuprofen"%string = Some ibuprofen_added
  /\ day_aligned (DEFAULT_TIME_ZONE sample_host) (data ibuprofen_added)
  /\ exists m',
       medications
         (handle_update_medication no_schedule never_due keep_cached sample_host
            (call_without_changes "ibuprofen") ibuprofen_registry)
         !! "ibuprofen"%string = Some m'
       /\ data m' = data ibuprofen_added.
Proof.
  assert (Hm : medications ibuprofen_registry !! "ibuprofen"%string = Some ibuprofen_added)
    by reflexivity.
  pose proof (added_data_day_aligned sample_host ibuprofen_call) as Hal.
  destruct (update_without_changes_keeps_the_data no_schedule never_due keep_cached sample_host
              "ibuprofen" ibuprofen_registry ibuprofen_added Hm Hal)
    as (m' & Hm' & Hd & _).
  split; [exact Hm|]. split; [exact Hal|]. exists m'. split; [exact Hm'|exact Hd].
Defined.

(** X17, on the sample: a query from day 2 back to day 0 has no events. *)
Lemma calendar_of_empty_range_witness :
  date_of ten_days_start < date_of day_two
  /\ async_get_events no_history_rate 0 [("aspirin"%string, aspirin_with_dose)]
       day_two ten_days_start = [].
Proof.
  assert (H : date_of ten_days_start < date_of day_two) by (vm_compute; reflexivity).
  split; [exact H|].
  exact (calendar_of_empty_range no_history_rate 0 _ day_two ten_days_start H).
Defined.

Lemma morning_dose_on_calendar :
  In (dose_event "aspirin" aspirin_with_dose morning_dose)
     (async_get_events no_history_rate 0 [("aspirin"%string, aspirin_with_dose)]
        query_start query_end).
Proof. vm_compute. left. reflexivity. Qed.

(** X18, on the sample: the event of the morning dose ends after it
    starts. *)
Lemma calendar_events_are_well_formed_witness :
  In (dose_event "aspirin" aspirin_with_dose morning_dose)
     (async_get_events no_history_rate 0 [("aspirin"%string, aspirin_with_dose)]
        query_start query_end)
  /\ instant (ev_start (dose_event "aspirin" aspirin_with_dose morning_dose))
     < instant (ev_end (dose_event "aspirin" aspirin_with_dose morning_dose)).
Proof.
  split; [exact morning_dose_on_calendar|].
  exact (proj1 (calendar_events_are_well_formed no_history_rate 0 _ query_start query_end
                  _ morning_dose_on_calendar)).
Defined.

(** X20, on the sample: the morning dose, returned for 12:00 to 13:00 of
    day 0, is returned for day 0 to day 10 as well. *)
Lemma calendar_is_monotone_in_the_range_witness :
  date_of ten_days_start <= date_of query_start
  /\ date_of query_end <= date_of ten_days_end
  /\ utcoffset ten_days_start = utcoffset query_start
  /\ In (dose_event "aspirin" aspirin_with_dose morning_dose)
        (async_get_events no_history_rate 0 [("aspirin"%string, aspirin_with_dose)]
           ten_days_start ten_days_end).
Proof.
  assert (H1 : date_of ten_days_start <= date_of query_start)
    by (vm_compute; discriminate).
  assert (H2 : date_of query_end <= date_of ten_days_end)
    by (vm_compute; discriminate).
  split; [exact H1|]. split; [exact H2|]. split; [reflexivity|].
  exact (calendar_is_monotone_in_the_range no_history_rate 0 _ query_start query_end
           ten_days_start ten_days_end _ H1 H2 eq_refl morning_dose_on_calendar).
Defined.

(** X21, on the sample: a dose of aspirin taken at noon of day 1 shows in
    the calendar of day 0 to day 10. *)
Lemma recorded_dose_shows_on_calendar_witness :
  medications aspirin_registry !! "aspirin"%string = Some aspirin
  /\ date_of ten_days_start <= date_of noon <= date_of ten_days_end
  /\ exists ev,
       In ev (async_get_events no_history_rate 0
                (map_to_list
                   (medications
                      (snd (async_take_medication no_schedule never_due keep_cached no_history_rate
                              sample_host "aspirin" None aspirin_registry))))
                ten_days_start ten_days_end)
       /\ ev_start ev = noon
       /\ ev_uid ev = DoseUid "aspirin" noon.
Proof.
  assert (Hrange : date_of ten_days_start <= date_of noon <= date_of ten_days_end)
    by (vm_compute; split; discriminate).
  destruct (recorded_dose_shows_on_calendar no_schedule never_due keep_cached no_history_rate
              sample_host "aspirin" None aspirin_registry aspirin 0
              ten_days_start ten_days_end aspirin_is_registered Hrange)
    as ((ev & Hin & Hstart & Huid & _) & _).
  split; [exact aspirin_is_registered|]. split; [exact Hrange|].
  exists ev. split; [exact Hin|]. split; [exact Hstart|exact Huid].
Defined.

Lemma sample_entities_keyed :
  forall k e, sample_entities !! k = Some e -> entity_id e = k.
Proof.
  intros k e H. unfold sample_entities in H.
  apply lookup_insert_Some in H as [[<- <-]|[_ H]]; [reflexivity|].
  apply lookup_insert_Some in H as [[<- <-]|[_ H]]; [reflexivity|].
  rewrite lookup_empty in H. discriminate.
Qed.

(** X22, on the sample: removing the entities of aspirin removes its sensor
    and keeps the dose calendar. *)
Lemma entities_of_the_medication_are_removed_witness :
  (forall k e, sample_entities !! k = Some e -> entity_id e = k)
  /\ _async_remove_entities_for_medication "aspirin" sample_entities
       !! "sensor.aspirin_status"%string = None
  /\ _async_remove_entities_for_medication "aspirin" sample_entities
       !! "calendar.doses"%string = Some dose_calendar.
Proof.
  destruct (entities_of_the_medication_are_removed "aspirin" sample_entities
              sample_entities_keyed) as [Hlookup _].
  split; [exact sample_entities_keyed|].
  split; [rewrite Hlookup|rewrite Hlookup]; vm_compute; reflexivity.
Defined.

(** X16, on the sample: on an empty service registry the set-up registers
    take_medication, and unloading afterwards leaves the registry empty
    again. *)
Lemma services_setup_and_unload_witness :
  has_service DOMAIN SERVICE_TAKE_MEDICATION ∅ = false
  /\ async_setup_services ∅ !! (DOMAIN, SERVICE_TAKE_MEDICATION)
     = Some TakeMedicationService
  /\ async_unload_services (async_setup_services ∅) = ∅.
Proof.
  destruct (services_setup_and_unload ∅) as (_ & _ & Hsetup & _ & Hround).
  split; [reflexivity|]. split.
  - destruct (Hsetup eq_refl) as [Hall _].
    exact (f_equal (fun t => fst (fst (fst (fst (fst (fst t)))))) Hall).
  - apply Hround. intros key _. apply lookup_empty.
Defined.
